(** * StudyPal: the explanation pipeline of [app.py] and the quiz of [quiz_app.py]

    A shallow embedding of [ContentExplainer] (classifier, prompt table,
    generation invoker, chunking and aggregation, section rendering) and of
    [QuizApp.get_level], followed by the properties stated for them.

    Conventions of the embedding.
    - A Python [str] is a [list ascii]; a character is read as the code point
      U+0000..U+00FF it denotes, and [isspace], [isupper] and [lower] are
      Python's tables on that range.
    - A Python [int] that is a length or a count is a [nat]; one that takes
      part in a subtraction or a comparison with one ([max_retries],
      [attempt], [returncode]) is a [Z].
    - A [dict] is an association list in insertion order, which is the order
      [items()] and iteration observe.
    - Exceptions are explicit: a pure function that may raise returns a
      [Res]; code that also talks to the outside (the [ollama] subprocess,
      [print], [time.sleep]) lives in the monad [M] over a [World] holding
      the state of the external process and the trace of effects. *)

From Stdlib Require Import List ZArith Lia Bool Arith PeanoNat Ascii String.
From Stdlib Require Import DecimalString.
From Stdlib Require Import PrimFloat Uint63 SpecFloat FloatOps.
Import ListNotations.

Set Implicit Arguments.
Set Warnings "-inexact-float".

(* ================================================================== *)
(** ** Python strings *)
(* ================================================================== *)

Module PyStr.

Definition str := list ascii.

Definition lit (s : string) : str := list_ascii_of_string s.

Definition LF : ascii := "010"%char.
Definition SP : ascii := " "%char.

Definition len (s : str) : nat := List.length s.

Fixpoint str_eqb (a b : str) : bool :=
  match a, b with
  | [], [] => true
  | x :: a', y :: b' => Ascii.eqb x y && str_eqb a' b'
  | _, _ => false
  end.

(** [s[i:j]] for non-negative bounds. *)
Definition slice (s : str) (i j : nat) : str := firstn (j - i) (skipn i s).

(** [range(start, stop, step)] for a positive [step], as the iteration
    yields it: [start], [start+step], ... while below [stop].  The fuel
    bounds the number of items; [range3] gives enough of it. *)
Fixpoint range_from (fuel start stop step : nat) : list nat :=
  match fuel with
  | O => []
  | S fuel' =>
      if start <? stop
      then start :: range_from fuel' (start + step) stop step
      else []
  end.

Definition range3 (start stop step : nat) : list nat :=
  range_from (stop - start) start stop step.

(** [range(n)] for an [int] that may be negative. *)
Definition range1 (n : Z) : list Z := map Z.of_nat (seq 0 (Z.to_nat n)).

(** [c.isspace()] *)
Definition isspace (c : ascii) : bool :=
  let n := nat_of_ascii c in
  ((9 <=? n) && (n <=? 13)) || ((28 <=? n) && (n <=? 32))
  || (n =? 133) || (n =? 160).

(** [c.isupper()]: the letters of category Lu. *)
Definition isupper (c : ascii) : bool :=
  let n := nat_of_ascii c in
  ((65 <=? n) && (n <=? 90))
  || ((192 <=? n) && (n <=? 222) && negb (n =? 215)).

Definition lower_char (c : ascii) : ascii :=
  if isupper c then ascii_of_nat (nat_of_ascii c + 32) else c.

(** [s.lower()] *)
Definition lower (s : str) : str := map lower_char s.

Fixpoint lstrip (s : str) : str :=
  match s with
  | c :: s' => if isspace c then lstrip s' else s
  | [] => []
  end.

Definition rstrip (s : str) : str := rev (lstrip (rev s)).

(** [s.strip()] *)
Definition strip (s : str) : str := rstrip (lstrip s).

(** [s.startswith(p)] *)
Fixpoint startswith (p s : str) : bool :=
  match p, s with
  | [], _ => true
  | x :: p', y :: s' => Ascii.eqb x y && startswith p' s'
  | _ :: _, [] => false
  end.

(** [s.count(sub)] for a non-empty [sub]: occurrences found scanning from
    the left, the search resuming after each match.  [skip] is the number
    of characters of the last match still to be passed. *)
Fixpoint count_from (sub s : str) (skip : nat) : nat :=
  match s with
  | [] => 0
  | _ :: s' =>
      match skip with
      | S k => count_from sub s' k
      | O =>
          if startswith sub s
          then S (count_from sub s' (len sub - 1))
          else count_from sub s' 0
      end
  end.

Definition count (s sub : str) : nat := count_from sub s 0.

(** [s.replace(old, new)] for a non-empty [old]. *)
Fixpoint replace_from (old new s : str) (skip : nat) : str :=
  match s with
  | [] => []
  | c :: s' =>
      match skip with
      | S k => replace_from old new s' k
      | O =>
          if startswith old s
          then new ++ replace_from old new s' (len old - 1)
          else c :: replace_from old new s' 0
      end
  end.

Definition replace (s old new : str) : str := replace_from old new s 0.

(** [s.split(sep)] for a non-empty [sep]; [cur] is the current field,
    reversed. *)
Fixpoint split_from (sep s : str) (skip : nat) (cur : str) : list str :=
  match s with
  | [] => [rev cur]
  | c :: s' =>
      match skip with
      | S k => split_from sep s' k cur
      | O =>
          if startswith sep s
          then rev cur :: split_from sep s' (len sep - 1) []
          else split_from sep s' 0 (c :: cur)
      end
  end.

Definition split (s sep : str) : list str := split_from sep s 0 [].

(** [sep.join(l)] *)
Fixpoint join (sep : str) (l : list str) : str :=
  match l with
  | [] => []
  | [x] => x
  | x :: l' => x ++ sep ++ join sep l'
  end.

(** [any(c.isupper() for c in s)] *)
Definition any_isupper (s : str) : bool := existsb isupper s.

(** [str(n)] for an [int]. *)
Definition str_of_int (n : Z) : str :=
  list_ascii_of_string (NilEmpty.string_of_int (Z.to_int n)).

(** [c.isprintable()] *)
Definition isprintable (c : ascii) : bool :=
  let n := nat_of_ascii c in
  ((32 <=? n) && (n <=? 126)) || ((161 <=? n) && negb (n =? 173)).

Definition SQUOTE : ascii := "039"%char.
Definition DQUOTE : ascii := "034"%char.
Definition BACKSLASH : ascii := "092"%char.

Definition hex_digit (n : nat) : ascii :=
  if n <? 10 then ascii_of_nat (48 + n) else ascii_of_nat (87 + n).

(** One character of [repr(s)] when the string is written between
    [quote]s. *)
Definition repr_char (quote c : ascii) : str :=
  let n := nat_of_ascii c in
  if Ascii.eqb c quote || Ascii.eqb c BACKSLASH then [BACKSLASH; c]
  else if n =? 9 then [BACKSLASH; "t"%char]
  else if n =? 10 then [BACKSLASH; "n"%char]
  else if n =? 13 then [BACKSLASH; "r"%char]
  else if isprintable c then [c]
  else [BACKSLASH; "x"%char; hex_digit (n / 16); hex_digit (n mod 16)].

(** [repr(s)]: between double quotes when [s] has a single quote and no
    double quote, between single quotes otherwise. *)
Definition repr (s : str) : str :=
  let has_single := existsb (Ascii.eqb SQUOTE) s in
  let has_double := existsb (Ascii.eqb DQUOTE) s in
  let quote := if has_single && negb has_double then DQUOTE else SQUOTE in
  quote :: flat_map (repr_char quote) s ++ [quote].

End PyStr.
Import PyStr.

(* ================================================================== *)
(** ** Exceptions, results and dictionaries *)
(* ================================================================== *)

Module Py.

Inductive exn_class :=
| TimeoutExpired | OSError | KeyError | ValueError | ZeroDivisionError
| OverflowError.

(** A raised exception: its class and the text [str(e)] gives. *)
Record exn := mk_exn { exn_cls : exn_class; exn_str : str }.

(** [except subprocess.TimeoutExpired] *)
Definition is_TimeoutExpired (e : exn) : bool :=
  match exn_cls e with TimeoutExpired => true | _ => false end.

(** [except Exception]: every class above derives from [Exception]. *)
Definition is_Exception (e : exn) : bool :=
  match exn_cls e with
  | TimeoutExpired | OSError | KeyError | ValueError | ZeroDivisionError
  | OverflowError => true
  end.

Inductive Res (A : Type) :=
| Val (a : A)
| Raised (e : exn).
Arguments Val {A} a.
Arguments Raised {A} e.

Definition res_bind {A B} (r : Res A) (k : A -> Res B) : Res B :=
  match r with
  | Val a => k a
  | Raised e => Raised e
  end.

Definition dict (V : Type) := list (str * V).

Fixpoint dict_get {V} (d : dict V) (k : str) : option V :=
  match d with
  | [] => None
  | (k', v) :: d' => if str_eqb k' k then Some v else dict_get d' k
  end.

(** [d[k] = v]: an existing key keeps its place, a new one goes last. *)
Fixpoint dict_set {V} (d : dict V) (k : str) (v : V) : dict V :=
  match d with
  | [] => [(k, v)]
  | (k', v') :: d' =>
      if str_eqb k' k then (k', v) :: d' else (k', v') :: dict_set d' k v
  end.

(** [d[k]]; the text of the [KeyError] is [repr(k)]. *)
Definition getitem {V} (d : dict V) (k : str) : Res V :=
  match dict_get d k with
  | Some v => Val v
  | None => Raised (mk_exn KeyError (repr k))
  end.

(** [d.get(k, default)] *)
Definition get_default {V} (d : dict V) (k : str) (default : V) : V :=
  match dict_get d k with
  | Some v => v
  | None => default
  end.

Definition keys {V} (d : dict V) : list str := map fst d.

(** [sum(...)] of counts. *)
Definition sum (l : list nat) : nat := fold_left Nat.add l 0.

(** [max(l, key=key)]: the first item whose key no later item exceeds;
    [ValueError] on an empty sequence. *)
Definition max_by {A} (key : A -> nat) (l : list A) : Res A :=
  match l with
  | [] => Raised (mk_exn ValueError (lit "max() arg is an empty sequence"))
  | x :: l' =>
      Val (fold_left (fun best y => if key best <? key y then y else best) l' x)
  end.

End Py.
Import Py.

Declare Scope res_scope.
Delimit Scope res_scope with res.
Notation "x <- c ;; k" := (res_bind c (fun x => k))
  (at level 61, c at next level, right associativity) : res_scope.

(* ================================================================== *)
(** ** The outside world: the [ollama] subprocess, the console, the clock
       and the document writer *)
(* ================================================================== *)

Module Sys.

(** The paragraph styles of [_create_custom_styles]. *)
Inductive Style := Title | Heading1 | Normal | Topic | ImageCaption.

(** The flowables a story is made of. *)
Inductive Flowable :=
| Paragraph (text : str) (style : Style)
| Spacer (width : Z) (height : float).

(** What one spawned [ollama run] does: the spawn itself fails, or the
    process ends within the timeout with a return code and its two
    streams, or it is still running when the timeout expires. *)
Inductive Outcome :=
| SpawnError (msg : str)
| Exits (returncode : Z) (stdout stderr : str)
| Hangs.

Inductive Event :=
| EPopen (argv : list str)
| ECommunicate (timeout : Z)
| EKill
| ESleep (seconds : Z)
| EPrint (line : str)
| EBuild (filename : str) (story : list Flowable).

(** The external process is a function of the command lines spawned so
    far, the latest first: this covers every deterministic stand-in for
    it, with or without memory.  [spawned] is that history and [trace] the
    effects performed, oldest first. *)
Record World := mk_world {
  double : list (list str) -> Outcome;
  spawned : list (list str);
  trace : list Event
}.

Definition M (A : Type) := World -> Res A * World.

Definition ret {A} (a : A) : M A := fun w => (Val a, w).

Definition bind {A B} (m : M A) (k : A -> M B) : M B :=
  fun w =>
    match m w with
    | (Val a, w') => k a w'
    | (Raised e, w') => (Raised e, w')
    end.

Definition raise {A} (e : exn) : M A := fun w => (Raised e, w).

Definition lift {A} (r : Res A) : M A := fun w => (r, w).

(** [try: body except cls as e: handler e] *)
Definition try_except {A} (body : M A) (cls : exn -> bool)
    (handler : exn -> M A) : M A :=
  fun w =>
    match body w with
    | (Raised e, w') => if cls e then handler e w' else (Raised e, w')
    | (Val a, w') => (Val a, w')
    end.

Definition emit (e : Event) : M unit :=
  fun w => (Val tt, mk_world (double w) (spawned w) (trace w ++ [e])).

Definition print (line : str) : M unit := emit (EPrint line).
Definition sleep (seconds : Z) : M unit := emit (ESleep seconds).

(** A [Popen] object: what the spawned process is going to do. *)
Inductive Process :=
| Running (returncode : Z) (stdout stderr : str)
| Stuck.

(** [subprocess.Popen(argv, ...)] *)
Definition Popen (argv : list str) : M Process :=
  fun w =>
    let history := argv :: spawned w in
    let w' := mk_world (double w) history (trace w ++ [EPopen argv]) in
    match double w history with
    | SpawnError msg => (Raised (mk_exn OSError msg), w')
    | Exits rc out err => (Val (Running rc out err), w')
    | Hangs => (Val Stuck, w')
    end.

(** [process.communicate(timeout=t)] followed by the reading of
    [process.returncode]: the two streams and the return code, or
    [TimeoutExpired].  The text of that exception is never read. *)
Definition communicate (process : Process) (timeout : Z) : M (str * str * Z) :=
  fun w =>
    let w' := mk_world (double w) (spawned w) (trace w ++ [ECommunicate timeout]) in
    match process with
    | Running rc out err => (Val (out, err, rc), w')
    | Stuck => (Raised (mk_exn TimeoutExpired (lit "timed out")), w')
    end.

(** [process.kill()] *)
Definition kill (process : Process) : M unit := emit EKill.

End Sys.
Import Sys.

Declare Scope m_scope.
Delimit Scope m_scope with M.
Notation "x <- c ;; k" := (bind c (fun x => k))
  (at level 61, c at next level, right associativity) : m_scope.
Notation "c ;; k" := (bind c (fun _ => k))
  (at level 61, right associativity) : m_scope.

(* ================================================================== *)
(** ** [class ContentExplainer] of [app.py] *)
(* ================================================================== *)

Module ContentExplainer.

Definition markers : dict (list str) :=
  [ (lit "technical",
      map lit ["algorithm"; "implementation"; "system"; "process";
               "technical"; "architecture"]%string);
    (lit "scientific",
      map lit ["experiment"; "research"; "study"; "analysis"; "data";
               "methodology"]%string);
    (lit "theoretical",
      map lit ["theory"; "concept"; "principle"; "framework"; "model";
               "approach"]%string);
    (lit "educational",
      map lit ["learn"; "understand"; "explain"; "example"; "practice";
               "exercise"]%string);
    (lit "business",
      map lit ["strategy"; "market"; "business"; "management";
               "organization"; "planning"]%string) ].

(** [sum(text.count(marker) for marker in markers[category])] *)
Definition score_of (text : str) (category_markers : list str) : nat :=
  sum (map (count text) category_markers).

(** The comprehension walks the keys of [markers] in order and reads
    [markers[category]] for each, that is, it walks the items. *)
Definition scores_of (text : str) : dict nat :=
  map (fun item => (fst item, score_of text (snd item))) markers.

Definition detect_content_type (text : str) : Res str :=
  let text := lower text in
  let scores := scores_of text in
  (best <- max_by snd scores ;; Val (fst best))%res.

Definition base_prompts : dict (dict str) :=
  [ (lit "technical",
      [ (lit "beginner", lit "Please explain this technical content in simple terms for beginners: ");
        (lit "intermediate", lit "Please provide a detailed technical explanation of: ");
        (lit "advanced", lit "Please provide an in-depth technical analysis of: ") ]);
    (lit "scientific",
      [ (lit "beginner", lit "Please explain this scientific content in accessible terms: ");
        (lit "intermediate", lit "Please provide a detailed scientific explanation of: ");
        (lit "advanced", lit "Please provide an in-depth scientific analysis of: ") ]);
    (lit "theoretical",
      [ (lit "beginner", lit "Please explain these theoretical concepts in simple terms: ");
        (lit "intermediate", lit "Please provide a detailed theoretical explanation of: ");
        (lit "advanced", lit "Please provide an in-depth theoretical analysis of: ") ]);
    (lit "educational",
      [ (lit "beginner", lit "Please explain this educational material in student-friendly terms: ");
        (lit "intermediate", lit "Please provide a comprehensive educational explanation of: ");
        (lit "advanced", lit "Please provide an in-depth educational analysis of: ") ]);
    (lit "business",
      [ (lit "beginner", lit "Please explain this business content in simple terms: ");
        (lit "intermediate", lit "Please provide a detailed business analysis of: ");
        (lit "advanced", lit "Please provide an in-depth business analysis of: ") ]) ].

Definition generate_prompts (content_type : str) : Res (dict str) :=
  (fallback <- getitem base_prompts (lit "educational") ;;
   Val (get_default base_prompts content_type fallback))%res.

(** The value [call_llama_with_ollama] returns when every attempt failed. *)
Definition FAILED : str :=
  lit "Failed to generate explanation after multiple attempts.".

(** The explanation of a tier none of whose chunks was kept. *)
Definition NO_EXPLANATION : str := lit "No explanation generated.".

Local Open Scope m_scope.
Local Open Scope Z_scope.

(** One turn of the [for attempt] loop up to the backoff test: [Some v]
    when the function returns [v], [None] when control falls through. *)
Definition attempt_once (prompt : str) (attempt : Z) : M (option str) :=
  try_except
    (process <- Popen [lit "ollama"; lit "run"; lit "llama3.2"; prompt] ;;
     try_except
       (r <- communicate process 120 ;;
        let '(stdout, stderr, returncode) := r in
        if returncode =? 0 then ret (Some (strip stdout))
        else
          print (lit "Attempt " ++ str_of_int (attempt + 1)
                 ++ lit " failed with error: " ++ stderr) ;;
          ret None)
       is_TimeoutExpired
       (fun _ =>
          kill process ;;
          print (lit "Attempt " ++ str_of_int (attempt + 1) ++ lit " timed out") ;;
          ret None))
    is_Exception
    (fun e =>
       print (lit "Attempt " ++ str_of_int (attempt + 1)
              ++ lit " failed with exception: " ++ exn_str e) ;;
       ret None).

Fixpoint for_attempts (prompt : str) (max_retries : Z) (attempts : list Z)
    : M str :=
  match attempts with
  | [] => ret FAILED
  | attempt :: rest =>
      r <- attempt_once prompt attempt ;;
      match r with
      | Some v => ret v
      | None =>
          (if attempt <? max_retries - 1 then sleep 3 else ret tt) ;;
          for_attempts prompt max_retries rest
      end
  end.

Definition call_llama_with_ollama (prompt : str) (max_retries : Z) : M str :=
  for_attempts prompt max_retries (range1 max_retries).

(** The default of [max_retries]. *)
Definition default_max_retries : Z := 3.

Definition max_chunk_size : nat := 3000.

(** [[note_text[i:i+size] for i in range(0, len(note_text), size)]] *)
Definition chunks_of (size : nat) (note_text : str) : list str :=
  map (fun i => slice note_text i (i + size)) (range3 0 (len note_text) size).

(** The [for chunk in chunks] loop. *)
Fixpoint for_chunks (prompt_template : str) (chunks : list str)
    (full_explanation : list str) : M (list str) :=
  match chunks with
  | [] => ret full_explanation
  | chunk :: rest =>
      let prompt := prompt_template ++ [LF; LF] ++ chunk in
      chunk_explanation <- call_llama_with_ollama prompt default_max_retries ;;
      if negb (str_eqb chunk_explanation FAILED)
      then for_chunks prompt_template rest (full_explanation ++ [chunk_explanation])
      else for_chunks prompt_template rest full_explanation
  end.

(** The [for level, prompt_template in prompts.items()] loop. *)
Fixpoint for_levels (items : list (str * str)) (chunks : list str)
    (explanations : dict str) : M (dict str) :=
  match items with
  | [] => ret explanations
  | (level, prompt_template) :: rest =>
      full_explanation <- for_chunks prompt_template chunks [] ;;
      let explanation :=
        match full_explanation with
        | [] => NO_EXPLANATION
        | _ :: _ => join [LF; LF] full_explanation
        end in
      for_levels rest chunks (dict_set explanations level explanation)
  end.

Definition generate_explanations (note_text : str) : M (dict str * str) :=
  content_type <- lift (detect_content_type note_text) ;;
  print (lit "Detected content type: " ++ content_type) ;;
  prompts <- lift (generate_prompts content_type) ;;
  let chunks := chunks_of max_chunk_size note_text in
  explanations <- for_levels prompts chunks [] ;;
  ret (explanations, content_type).

Definition inch : float := 72%float.

Definition level_titles : dict str :=
  [ (lit "beginner", lit "Beginner-Friendly Guide");
    (lit "intermediate", lit "Comprehensive Guide");
    (lit "advanced", lit "Advanced Analysis") ].

(** The [for section in sections] loop as the flowables it asks the
    document library for, in order; [for_sections_M] below is the same
    loop with the answers of the library. *)
Fixpoint for_sections (sections : list str) (story : list Flowable)
    : list Flowable :=
  match sections with
  | [] => story
  | section :: rest =>
      match strip section with
      | [] => for_sections rest story
      | _ :: _ =>
          let section := strip section in
          if (len section <? 100)%nat && any_isupper section
          then for_sections rest (story ++ [Paragraph section Topic])
          else for_sections rest
                 (story ++ [Paragraph (replace section [LF] [SP]) Normal;
                            Spacer 1 (0.1 * inch)%float])
      end
  end.

Section Rendering.

(** [str.title()] of the runtime; its case tables leave the range of
    characters read here, so it is taken as given. *)
Variable str_title : str -> str.

(** [Paragraph(text, style)] of the document library reads [text] as
    markup: [None] when it accepts the text, or the exception it raises
    (a [ValueError] for markup it cannot parse).  The library is not part
    of this repository, so its answer is taken as given. *)
Variable paragraph_error : str -> Style -> option exn.

(** [doc.build(story)] for the document of a file name: [None] when the
    document is written, or the exception raised. *)
Variable build_error : str -> list Flowable -> option exn.

Definition new_Paragraph (text : str) (style : Style) : M Flowable :=
  match paragraph_error text style with
  | Some e => raise e
  | None => ret (Paragraph text style)
  end.

(** The [for section in sections] loop. *)
Fixpoint for_sections_M (sections : list str) (story : list Flowable)
    : M (list Flowable) :=
  match sections with
  | [] => ret story
  | section :: rest =>
      match strip section with
      | [] => for_sections_M rest story
      | _ :: _ =>
          let section := strip section in
          if (len section <? 100)%nat && any_isupper section
          then
            p <- new_Paragraph section Topic ;;
            for_sections_M rest (story ++ [p])
          else
            p <- new_Paragraph (replace section [LF] [SP]) Normal ;;
            for_sections_M rest (story ++ [p; Spacer 1 (0.1 * inch)%float])
      end
  end.

(** [doc.build(story)]: an [EBuild] event stands for a document that has
    been written. *)
Definition build (output_filename : str) (story : list Flowable) : M unit :=
  match build_error output_filename story with
  | Some e => raise e
  | None => emit (EBuild output_filename story)
  end.

Definition create_level_pdf (content title level content_type
    output_filename : str) : M unit :=
  p <- new_Paragraph title Title ;;
  let story := [p] in
  level_title <- lift (getitem level_titles level) ;;
  let level_subtitle :=
    level_title ++ lit " - " ++ str_title content_type ++ lit " Content" in
  p <- new_Paragraph level_subtitle Heading1 ;;
  let story := story ++ [p] in
  let story := story ++ [Spacer 1 (0.3 * inch)%float] in
  let sections := split content [LF; LF] in
  story <- for_sections_M sections story ;;
  build output_filename story ;;
  print (lit "PDF created: " ++ output_filename).

End Rendering.

End ContentExplainer.
Import ContentExplainer.

(* ================================================================== *)
(** ** [class QuizApp] of [quiz_app.py] *)
(* ================================================================== *)

Module QuizApp.

Record MCQ := mk_mcq { question : str; options : list str; answer : str }.

Record QuizApp := mk_quiz { mcqs : list MCQ; score : Z }.

Definition init : QuizApp :=
  mk_quiz
    [ mk_mcq
        (lit "What is the primary goal of a scheduling system in an operating system?")
        (map lit ["To minimize CPU utilization";
                  "To make full use of CPU cycles during I/O wait times";
                  "To increase I/O wait times";
                  "To reduce the time needed for context switching"]%string)
        (lit "To make full use of CPU cycles during I/O wait times");
      mk_mcq
        (lit "What does a typical CPU-I/O burst cycle involve?")
        (map lit ["Alternating between CPU execution and memory storage";
                  "Alternating between CPU calculations and I/O wait times";
                  "Continuous CPU calculations only";
                  "Continuous I/O wait times only"]%string)
        (lit "Alternating between CPU calculations and I/O wait times");
      mk_mcq
        (lit "Where are all processes stored upon entering the system?")
        (map lit ["Ready Queue"; "Job Queue"; "Waiting Queue"; "Device Queue"]%string)
        (lit "Job Queue");
      mk_mcq
        (lit "What is the main function of the long-term scheduler?")
        (map lit ["To manage the job queue by loading processes into memory for execution";
                  "To handle device requests in the waiting queue";
                  "To control I/O processes only";
                  "To schedule jobs directly to the CPU"]%string)
        (lit "To manage the job queue by loading processes into memory for execution") ]
    0.

(** [float(n)]: the binary64 nearest to [n], ties to even; exact for
    [|n| <= 2^53].  (Python raises [OverflowError] where this gives an
    infinity.) *)
Definition float_of_int (n : Z) : float :=
  SF2Prim (binary_normalize prec emax n 0 false).

(** [a / b] on two [int]s.  Python divides the integers themselves and
    rounds the exact quotient once to the nearest binary64, ties to even
    (it does not convert [a] and [b] first): [ZeroDivisionError] when [b]
    is 0, [OverflowError] when the rounded quotient is not finite, and a
    zero that carries the sign of the quotient.  The quotient is computed
    to 56 bits or more; a last bit records whether the division left a
    remainder, so that the rounding sees on which side of a tie the exact
    quotient lies. *)
Definition truediv (a b : Z) : Res float :=
  if (b =? 0)%Z
  then Raised (mk_exn ZeroDivisionError (lit "division by zero"))
  else
    let negate := xorb (a <? 0)%Z (b <? 0)%Z in
    let x := Z.abs a in
    let y := Z.abs b in
    let k := Z.max 0 (Z.log2 y - Z.log2 x + 56) in
    let n := (x * 2 ^ k / y)%Z in
    let sticky := if ((x * 2 ^ k) mod y =? 0)%Z then 0%Z else 1%Z in
    let m := (2 * n + sticky)%Z in
    match binary_normalize prec emax (if negate then - m else m)%Z
                           (- k - 1) negate with
    | S754_infinity _ =>
        Raised (mk_exn OverflowError
                  (lit "integer division result too large for a float"))
    | q => Val (SF2Prim q)
    end.

(** [(self.score / total_questions) * 100] *)
Definition percentage_of (self : QuizApp) : Res float :=
  let total_questions := Z.of_nat (List.length (mcqs self)) in
  (q <- truediv (score self) total_questions ;; Val (q * 100)%float)%res.

(** The two [print]s of [get_level] are left out: they do not change what
    it returns. *)
Definition get_level (self : QuizApp) : Res str :=
  (percentage <- percentage_of self ;;
   Val (if (percentage <? 40)%float then lit "beginner"
        else if (40 <=? percentage)%float && (percentage <? 70)%float
             then lit "intermediate"
             else lit "advanced"))%res.

End QuizApp.

(* ================================================================== *)
(** ** [main] of [app.py], once the text is extracted *)
(* ================================================================== *)

Module Main.

Section Documents.

Variable str_title : str -> str.
Variable paragraph_error : str -> Style -> option exn.
Variable build_error : str -> list Flowable -> option exn.

Local Open Scope m_scope.

(** The loop [for level, content in explanations.items()]. *)
Fixpoint for_documents (items : list (str * str)) (title content_type : str)
    : M unit :=
  match items with
  | [] => ret tt
  | (level, content) :: rest =>
      let output_filename := level ++ lit "_guide.pdf" in
      create_level_pdf str_title paragraph_error build_error content title
        level content_type output_filename ;;
      for_documents rest title content_type
  end.

(** The body of [main] from the point where
    [extract_text_and_title_from_pdf] has returned [title] and
    [note_text].  The reading of the PDF file and the temporary directory
    the constructor makes and [cleanup] removes belong to the file system
    and are not part of this model. *)
Definition main_after_extraction (title note_text : str) : M unit :=
  r <- generate_explanations note_text ;;
  let '(explanations, content_type) := r in
  for_documents explanations title content_type.

End Documents.

End Main.
Import Main.

(* ================================================================== *)
(** ** [QuizApp.start_quiz] of [quiz_app.py] *)
(* ================================================================== *)

Module QuizRun.

Import QuizApp.

Local Open Scope Z_scope.

(** What [start_quiz] can raise: [EOFError] from [input] at the end of
    the input, [IndexError] from [options[...]], and what [get_level]
    raises.  The [ValueError] of [int] is caught inside. *)
Inductive quiz_exn :=
| EOFError
| IndexError
| FromLevel (e : exn).

Definition digit_value (c : ascii) : option Z :=
  let n := nat_of_ascii c in
  if ((48 <=? n) && (n <=? 57))%nat then Some (Z.of_nat (n - 48)) else None.

(** The digits of a decimal literal, where single underscores may stand
    between digits: the value so far, the number of digits read, and
    whether the last character was an underscore. *)
Fixpoint int_digits (s : str) (value : Z) (digits : nat)
    (after_underscore : bool) : option (Z * nat) :=
  match s with
  | [] => if after_underscore then None else Some (value, digits)
  | c :: s' =>
      if Ascii.eqb c "_"
      then if after_underscore then None else int_digits s' value digits true
      else match digit_value c with
           | Some d => int_digits s' (10 * value + d) (S digits) false
           | None => None
           end
  end.

(** [int(s)] for a [str]: [None] stands for [ValueError].  White
    characters around the literal are skipped, a sign may come first, the
    digits may not start with an underscore, and a literal of more than
    4300 digits is refused (the default limit of the conversion). *)
Definition int_of_str (s : str) : option Z :=
  let s := strip s in
  let '(negative, body) :=
    match s with
    | "-"%char :: body => (true, body)
    | "+"%char :: body => (false, body)
    | _ => (false, s)
    end in
  match body with
  | [] => None
  | c :: _ =>
      if Ascii.eqb c "_" then None
      else match int_digits body 0 0 false with
           | Some (value, digits) =>
               if (4300 <? digits)%nat then None
               else Some (if negative then - value else value)
           | None => None
           end
  end.

(** How the [while True] loop of one question ends. *)
Inductive Asked :=
| Answered (correct : bool)
| Stopped (e : quiz_exn).

(** The [while True] loop of one question on the lines still to be read:
    [input] takes the next line, a line that is no integer or no integer
    from 1 to 4 is passed over, and the first other line answers the
    question.  Returns how the loop ended and the lines left.  What the
    quiz prints is left out, here as in [get_level]. *)
Fixpoint ask (mcq : MCQ) (stdin : list str) : Asked * list str :=
  match stdin with
  | [] => (Stopped EOFError, [])
  | line :: rest =>
      match int_of_str (strip line) with
      | None => ask mcq rest
      | Some user_choice =>
          if (1 <=? user_choice) && (user_choice <=? 4)
          then
            match nth_error (options mcq) (Z.to_nat (user_choice - 1)) with
            | Some selected_option =>
                (Answered (str_eqb selected_option (answer mcq)), rest)
            | None => (Stopped IndexError, rest)
            end
          else ask mcq rest
      end
  end.

(** The [for i, mcq in enumerate(self.mcqs)] loop, [self.score] threaded
    through it. *)
Fixpoint for_mcqs (todo : list MCQ) (score : Z) (stdin : list str)
    : option quiz_exn * Z * list str :=
  match todo with
  | [] => (None, score, stdin)
  | mcq :: rest =>
      match ask mcq stdin with
      | (Answered correct, stdin') =>
          for_mcqs rest (if correct then score + 1 else score) stdin'
      | (Stopped e, stdin') => (Some e, score, stdin')
      end
  end.

Inductive Returned :=
| Level (level : str)
| Raises (e : quiz_exn).

(** [start_quiz]: what it returns or raises, the quiz object afterwards
    and the lines left unread. *)
Definition start_quiz (self : QuizApp) (stdin : list str)
    : Returned * QuizApp * list str :=
  match for_mcqs (mcqs self) (score self) stdin with
  | (Some e, score', stdin') => (Raises e, mk_quiz (mcqs self) score', stdin')
  | (None, score', stdin') =>
      let self' := mk_quiz (mcqs self) score' in
      match get_level self' with
      | Val level => (Level level, self', stdin')
      | Raised e => (Raises (FromLevel e), self', stdin')
      end
  end.

End QuizRun.

(* ================================================================== *)
(** * The vocabulary of the properties *)
(* ================================================================== *)

(** ** Classification *)

(** Position [i] holds a maximum of [key] over [l], and no earlier
    position does. *)
Definition first_max (A : Type) (key : A -> nat) (d : A) (l : list A)
    (i : nat) : Prop :=
  i < List.length l
  /\ (forall j, j < List.length l -> key (nth j l d) <= key (nth i l d))
  /\ (forall j, j < i -> key (nth j l d) < key (nth i l d)).

(** The five categories in the order [markers] declares them. *)
Definition categories : list str :=
  [lit "technical"; lit "scientific"; lit "theoretical"; lit "educational";
   lit "business"].

(** The score of category number [j] on [T]: the sum, over its keywords,
    of their occurrence counts in the lower-cased text. *)
Definition score_nth (T : str) (j : nat) : nat :=
  sum (map (count (lower T)) (nth j (map snd markers) [])).

(** ** The attempts of a call and their effects *)

(** The command line of one attempt. *)
Definition argv_of (prompt : str) : list str :=
  [lit "ollama"; lit "run"; lit "llama3.2"; prompt].

(** What the external process does at the [k]-th next attempt (from 0) of
    [prompt] in world [w], no other command being spawned in between. *)
Definition nth_outcome (w : World) (prompt : str) (k : nat) : Outcome :=
  double w (repeat (argv_of prompt) (S k) ++ spawned w).

Definition outcomes (w : World) (prompt : str) (n : nat) : list Outcome :=
  map (nth_outcome w prompt) (seq 0 n).

(** An attempt succeeds when the process ends in time with status 0; its
    standard output is then the generated text. *)
Definition succeeded (o : Outcome) : option str :=
  match o with
  | Exits rc out _ => if (rc =? 0)%Z then Some out else None
  | SpawnError _ | Hangs => None
  end.

Definition failed (o : Outcome) : Prop := succeeded o = None.

Fixpoint first_success (outs : list Outcome) : option str :=
  match outs with
  | [] => None
  | o :: rest =>
      match succeeded o with
      | Some out => Some out
      | None => first_success rest
      end
  end.

(** The attempts a run makes when the process behaves as [outs]: up to
    and including the first success. *)
Fixpoint attempts_made (outs : list Outcome) : nat :=
  match outs with
  | [] => 0
  | o :: rest =>
      match succeeded o with
      | Some _ => 1
      | None => S (attempts_made rest)
      end
  end.

Definition events_of_attempt (prompt : str) (attempt : Z) (o : Outcome)
    : list Event :=
  EPopen (argv_of prompt) ::
  match o with
  | SpawnError msg =>
      [EPrint (lit "Attempt " ++ str_of_int (attempt + 1)
               ++ lit " failed with exception: " ++ msg)]
  | Exits rc _ err =>
      ECommunicate 120 ::
      (if (rc =? 0)%Z then []
       else [EPrint (lit "Attempt " ++ str_of_int (attempt + 1)
                     ++ lit " failed with error: " ++ err)])
  | Hangs =>
      [ECommunicate 120; EKill;
       EPrint (lit "Attempt " ++ str_of_int (attempt + 1) ++ lit " timed out")]
  end.

(** The events of a whole call whose attempts, numbered from [a], meet the
    outcomes [outs]. *)
Fixpoint events_of_run (prompt : str) (max_retries : Z) (a : nat)
    (outs : list Outcome) : list Event :=
  match outs with
  | [] => []
  | o :: rest =>
      events_of_attempt prompt (Z.of_nat a) o ++
      match succeeded o with
      | Some _ => []
      | None =>
          (if (Z.of_nat a <? max_retries - 1)%Z then [ESleep 3] else [])
          ++ events_of_run prompt max_retries (S a) rest
      end
  end.

(** The attempts and the backoff waits of a trace, in order. *)
Definition schedule_of (evs : list Event) : list Event :=
  filter (fun e => match e with EPopen _ | ESleep _ => true | _ => false end) evs.

(** [n] attempts with one wait of 3 between consecutive ones. *)
Fixpoint backoff_schedule (argv : list str) (n : nat) : list Event :=
  match n with
  | O => []
  | S n' =>
      EPopen argv ::
      match n' with
      | O => []
      | S _ => ESleep 3 :: backoff_schedule argv n'
      end
  end.

(** The events a computation added to the trace. *)
Definition new_events (w w' : World) : list Event :=
  skipn (List.length (trace w)) (trace w').

Definition result_of (outs : list Outcome) : str :=
  match first_success outs with
  | Some out => strip out
  | None => FAILED
  end.

(** ** Chunk results and their aggregate *)

(** What a call with the default [max_retries] returns in world [w], and
    the world it leaves. *)
Definition call_result (prompt : str) (w : World) : str :=
  result_of (outcomes w prompt (Z.to_nat default_max_retries)).

Definition after_call (prompt : str) (w : World) : World :=
  let outs := outcomes w prompt (Z.to_nat default_max_retries) in
  mk_world (double w)
           (repeat (argv_of prompt) (attempts_made outs) ++ spawned w)
           (trace w ++ events_of_run prompt default_max_retries 0 outs).

(** The prompt of a chunk: the tier's prefix, a blank line, the chunk. *)
Definition prompt_of (prompt_template chunk : str) : str :=
  prompt_template ++ [LF; LF] ++ chunk.

(** The results of the chunks of one tier, in chunk order, and the world
    after the last call. *)
Fixpoint chunk_results (prompt_template : str) (chunks : list str) (w : World)
    : list str * World :=
  match chunks with
  | [] => ([], w)
  | chunk :: rest =>
      let prompt := prompt_of prompt_template chunk in
      let (results, w') := chunk_results prompt_template rest (after_call prompt w) in
      (call_result prompt w :: results, w')
  end.

(** The chunk results of every tier, in the order of the tiers. *)
Fixpoint tier_results (items : list (str * str)) (chunks : list str) (w : World)
    : list (str * list str) * World :=
  match items with
  | [] => ([], w)
  | (level, prompt_template) :: rest =>
      let (results, w1) := chunk_results prompt_template chunks w in
      let (others, w2) := tier_results rest chunks w1 in
      ((level, results) :: others, w2)
  end.

(** The results that are not the failure sentinel, in order. *)
Definition kept (results : list str) : list str :=
  filter (fun r => negb (str_eqb r FAILED)) results.

(** Aggregation as the specification words it. *)
Definition aggregate (results : list str) : str :=
  match kept results with
  | [] => NO_EXPLANATION
  | _ :: _ => join [LF; LF] (kept results)
  end.

Definition set_explanation (explanations : dict str) (tier : str * list str)
    : dict str :=
  dict_set explanations (fst tier) (aggregate (snd tier)).

(** The three tiers, in the order every row of [base_prompts] lists them. *)
Definition tiers : list str :=
  [lit "beginner"; lit "intermediate"; lit "advanced"].

(** The world in which the tiers are generated: the one of the call, the
    detected category printed. *)
Definition after_detection (content_type : str) (w : World) : World :=
  mk_world (double w) (spawned w)
           (trace w ++ [EPrint (lit "Detected content type: " ++ content_type)]).

(** ** Exclusion and failure *)

(** The chunk contributes nothing to the explanation of the tier. *)
Definition excluded (prompt_template chunk : str) (w : World) : Prop :=
  fst (for_chunks prompt_template [chunk] [] w) = Val [].

(** Every attempt the default [max_retries] allows for the chunk fails. *)
Definition generation_failed (prompt_template chunk : str) (w : World) : Prop :=
  Forall failed
    (outcomes w (prompt_of prompt_template chunk) (Z.to_nat default_max_retries)).

(** ** Processes that behave alike *)

(** The external process answers every later sequence of commands in the
    same way in both worlds. *)
Definition same_process (w1 w2 : World) : Prop :=
  forall later, later <> [] ->
    double w1 (later ++ spawned w1) = double w2 (later ++ spawned w2).

(** The process keeps no memory: what it does depends on the command it is
    given and on nothing spawned before. *)
Definition memoryless (w : World) : Prop :=
  forall argv earlier earlier',
    double w (argv :: earlier) = double w (argv :: earlier').

(** ** Blocks of a rendered explanation *)

(** A heading: shorter than 100 characters, with an uppercase one. *)
Definition is_heading (block : str) : bool :=
  (len block <? 100) && existsb isupper block.

(** What one paragraph-delimited block of the explanation adds to the
    story, as the specification words it. *)
Definition render_block (section : str) : list Flowable :=
  let block := strip section in
  match block with
  | [] => []
  | _ :: _ =>
      if is_heading block
      then [Paragraph block Topic]
      else [Paragraph (replace block [LF] [SP]) Normal;
            Spacer 1 (0.1 * inch)%float]
  end.

(** The exception of the first paragraph of a story that the document
    library refuses, the paragraphs being made in the order of the
    story. *)
Fixpoint first_refused (paragraph_error : str -> Style -> option exn)
    (story : list Flowable) : option exn :=
  match story with
  | [] => None
  | Paragraph text style :: rest =>
      match paragraph_error text style with
      | Some e => Some e
      | None => first_refused paragraph_error rest
      end
  | Spacer _ _ :: rest => first_refused paragraph_error rest
  end.

(** What stops the making of a document: the first paragraph refused or,
    all being accepted, the failure of the build. *)
Definition document_error (paragraph_error : str -> Style -> option exn)
    (build_error : str -> list Flowable -> option exn)
    (output_filename : str) (story : list Flowable) : option exn :=
  match first_refused paragraph_error story with
  | Some e => Some e
  | None => build_error output_filename story
  end.

(** The outcomes of the documents [docs], each a file name and a story,
    made one after the other: the first error stops the run; the events
    are those of the documents built before. *)
Fixpoint documents_run (paragraph_error : str -> Style -> option exn)
    (build_error : str -> list Flowable -> option exn)
    (docs : list (str * list Flowable)) : Res unit * list Event :=
  match docs with
  | [] => (Val tt, [])
  | (output_filename, story) :: rest =>
      match document_error paragraph_error build_error output_filename story with
      | Some e => (Raised e, [])
      | None =>
          let (r, evs) := documents_run paragraph_error build_error rest in
          (r, [EBuild output_filename story;
               EPrint (lit "PDF created: " ++ output_filename)] ++ evs)
      end
  end.

(** ** Stand-ins for the external process *)

(** A stand-in for the process that hangs twice and then answers. *)
Definition hangs_twice : World :=
  mk_world
    (fun history =>
       if List.length history <=? 2 then Hangs
       else Exits 0 (lit "  an answer " ++ [LF]) [])
    [] [].

(** A stand-in for the process that always ends with status 0 and prints
    the very sentence the invoker uses as its sentinel. *)
Definition parrot : World :=
  mk_world (fun _ => Exits 0 (FAILED ++ [LF]) []) [] [].

(** Stand-ins for the document library: one that accepts every text and
    writes every document, and one that refuses, as markup it cannot
    parse, every text with an opening angle bracket. *)
Definition accepts_all : str -> Style -> option exn := fun _ _ => None.

Definition writes_all : str -> list Flowable -> option exn := fun _ _ => None.

Definition refuses_angle : str -> Style -> option exn :=
  fun text _ =>
    if existsb (Ascii.eqb "<"%char) text
    then Some (mk_exn ValueError (lit "Parse error"))
    else None.

(** A stand-in for the process that reads the last character of the
    prompt: it answers chunks ending in [a] and in [c], and fails with
    status 1 on every other. *)
Definition by_last_char : World :=
  mk_world
    (fun history =>
       match history with
       | [_; _; _; prompt] :: _ =>
           match last prompt SP with
           | "a"%char => Exits 0 (lit "ok1" ++ [LF]) []
           | "c"%char => Exits 0 (lit "  ok2") []
           | _ => Exits 1 [] (lit "out of memory")
           end
       | _ => SpawnError (lit "no such command")
       end)
    [] [].

Definition three_chunks : str :=
  repeat "a"%char 3000 ++ repeat "b"%char 3000 ++ [ "c"%char ].

(** ** Further vocabulary: the invoker *)

(** The attempt ends in a timeout. *)
Definition timed_out (o : Outcome) : bool :=
  match o with
  | Hangs => true
  | SpawnError _ | Exits _ _ _ => false
  end.

(** The kills of a trace. *)
Definition kills_of (evs : list Event) : list Event :=
  filter (fun e => match e with EKill => true | _ => false end) evs.

(** ** Further vocabulary: the prompts of a run *)

(** The prompts of a run in the order the loops build them: tier by tier
    and, within a tier, chunk by chunk. *)
Definition all_prompts (prompts : dict str) (chunks : list str) : list str :=
  flat_map (fun item => map (prompt_of (snd item)) chunks) prompts.

(** The command lines spawned, oldest first, when prompt number [i] is
    attempted [counts[i]] times. *)
Definition spawned_in_order (ps : list str) (counts : list nat)
    : list (list str) :=
  List.concat (map (fun pk => repeat (argv_of (fst pk)) (snd pk))
                   (combine ps counts)).

(** The row of [base_prompts] used for a category missing from it. *)
Definition educational_prompts : dict str :=
  [ (lit "beginner",
     lit "Please explain this educational material in student-friendly terms: ");
    (lit "intermediate",
     lit "Please provide a comprehensive educational explanation of: ");
    (lit "advanced",
     lit "Please provide an in-depth educational analysis of: ") ].

(** ** Further vocabulary: documents *)

(** The paragraph separator of an explanation. *)
Definition BLANK_LINE : str := [LF; LF].

(** The story of the document of a tier: title, subtitle, a spacer, then
    the blocks of the explanation. *)
Definition document_story (subtitle_of_tier shown_category title
    explanation : str) : list Flowable :=
  [Paragraph title Title;
   Paragraph (subtitle_of_tier ++ lit " - " ++ shown_category ++ lit " Content")
     Heading1;
   Spacer 1 (0.3 * inch)%float]
  ++ flat_map render_block (split explanation BLANK_LINE).

(** What the building of one document adds to the trace. *)
Definition document_events (tier subtitle_of_tier shown_category title
    explanation : str) : list Event :=
  [EBuild (tier ++ lit "_guide.pdf")
     (document_story subtitle_of_tier shown_category title explanation);
   EPrint (lit "PDF created: " ++ tier ++ lit "_guide.pdf")].

(** The text has no line break at its end. *)
Definition no_final_LF (s : str) : Prop := forall front, s <> front ++ [LF].

(** ** Further vocabulary: the quiz *)

(** The choice a line of input makes, when it makes one: the integer from
    1 to 4 that [int] reads in the stripped line. *)
Definition valid_choice (line : str) : option Z :=
  match QuizRun.int_of_str (strip line) with
  | Some c => if ((1 <=? c) && (c <=? 4))%Z then Some c else None
  | None => None
  end.

(** The choices made by the lines of the input, in order. *)
Definition choices (stdin : list str) : list Z :=
  flat_map (fun line => match valid_choice line with
                        | Some c => [c]
                        | None => []
                        end) stdin.

(** Choice [c] is the answer of the question. *)
Definition is_correct (mcq : QuizApp.MCQ) (c : Z) : bool :=
  match nth_error (QuizApp.options mcq) (Z.to_nat (c - 1)) with
  | Some option => str_eqb option (QuizApp.answer mcq)
  | None => false
  end.

(** The score after the questions [todo] are answered by the choices
    [cs], one choice a question, or [EOFError] when the choices run
    out. *)
Fixpoint grade (todo : list QuizApp.MCQ) (cs : list Z) (score : Z)
    : option QuizRun.quiz_exn * Z :=
  match todo with
  | [] => (None, score)
  | mcq :: rest =>
      match cs with
      | [] => (Some QuizRun.EOFError, score)
      | c :: cs' =>
          grade rest cs' (if is_correct mcq c then score + 1 else score)%Z
      end
  end.

(** The number, 1 to 4, of the right option of each question. *)
Definition answer_key : list Z := [2; 2; 2; 1]%Z.

(** ** Further vocabulary: keywords and the lines of a call *)

(** [sub] occurs in [s]. *)
Definition occurs_in (sub s : str) : Prop := exists a b, s = a ++ sub ++ b.

(** The line a call prints for its attempt number [k], counted from 1,
    when the attempt meets [o]; none when the attempt succeeds. *)
Definition failure_line (k : nat) (o : Outcome) : option str :=
  match o with
  | SpawnError msg =>
      Some (lit "Attempt " ++ str_of_int (Z.of_nat k)
            ++ lit " failed with exception: " ++ msg)
  | Exits rc _ err =>
      if (rc =? 0)%Z then None
      else Some (lit "Attempt " ++ str_of_int (Z.of_nat k)
                 ++ lit " failed with error: " ++ err)
  | Hangs =>
      Some (lit "Attempt " ++ str_of_int (Z.of_nat k) ++ lit " timed out")
  end.

(** The lines printed in a trace, in order. *)
Definition printed (evs : list Event) : list str :=
  flat_map (fun e => match e with EPrint line => [line] | _ => [] end) evs.

(** The lines of the attempts numbered from [k] that meet [outs]. *)
Fixpoint failure_lines (k : nat) (outs : list Outcome) : list str :=
  match outs with
  | [] => []
  | o :: rest =>
      match failure_line k o with
      | Some line => line :: failure_lines (S k) rest
      | None => failure_lines (S k) rest
      end
  end.

(** ** Further vocabulary: the files built *)

(** The names of the documents built in a trace, in order. *)
Definition built_files (evs : list Event) : list str :=
  flat_map (fun e => match e with EBuild filename _ => [filename] | _ => [] end)
           evs.

(* ================================================================== *)
(** * Properties *)
(* ================================================================== *)

(** ** Strings and dictionaries *)

Lemma str_eqb_eq (a b : str) : str_eqb a b = true <-> a = b.
Proof.
  revert b; induction a as [|x a IH]; intros [|y b]; simpl;
    try (split; [discriminate | discriminate]); try tauto.
  rewrite andb_true_iff, Ascii.eqb_eq, IH.
  split; [intros [-> ->]; reflexivity | intros H; inversion H; auto].
Qed.

Lemma str_eqb_refl (a : str) : str_eqb a a = true.
Proof. apply str_eqb_eq; reflexivity. Qed.

Lemma str_eqb_neq (a b : str) : str_eqb a b = false <-> a <> b.
Proof.
  destruct (str_eqb a b) eqn:E.
  - apply str_eqb_eq in E. split; [discriminate | intros H; contradiction].
  - split; [intros _ H | reflexivity].
    apply str_eqb_eq in H. congruence.
Qed.

(** ** Chunking *)

Section Chunking.

Variable T : str.
Variable size : nat.
Hypothesis size_pos : 0 < size.

Let chunk_at (i : nat) : str := slice T i (i + size).

Lemma chunk_at_length (i : nat) :
  List.length (chunk_at i) = Nat.min size (len T - i).
Proof.
  unfold chunk_at, slice, len.
  rewrite length_firstn, length_skipn.
  replace (i + size - i) with size by lia. reflexivity.
Qed.

Lemma range_from_concat (fuel i : nat) :
  len T - i <= fuel ->
  List.concat (map chunk_at (range_from fuel i (len T) size)) = skipn i T.
Proof.
  revert i; induction fuel as [|fuel IH]; intros i Hfuel; simpl.
  - symmetry. apply skipn_all2. unfold len in *. lia.
  - destruct (Nat.ltb_spec i (len T)) as [Hlt|Hge]; simpl.
    + rewrite IH by lia.
      unfold chunk_at, slice.
      replace (i + size - i) with size by lia.
      replace (i + size) with (size + i) by lia.
      rewrite <- skipn_skipn.
      apply firstn_skipn.
    + symmetry. apply skipn_all2. exact Hge.
Qed.

Lemma range_from_length (fuel i : nat) :
  len T - i <= fuel ->
  List.length (range_from fuel i (len T) size) = (len T - i + size - 1) / size.
Proof.
  revert i; induction fuel as [|fuel IH]; intros i Hfuel; simpl.
  - replace (len T - i + size - 1) with (size - 1) by lia.
    symmetry. apply Nat.div_small. lia.
  - destruct (Nat.ltb_spec i (len T)) as [Hlt|Hge]; simpl.
    + rewrite IH by lia.
      destruct (Nat.le_gt_cases size (len T - i)) as [Hbig|Hsmall].
      * replace (len T - i + size - 1)
          with ((len T - (i + size) + size - 1) + 1 * size) by lia.
        rewrite Nat.div_add by lia. lia.
      * replace (len T - (i + size) + size - 1) with (size - 1) by lia.
        replace (len T - i + size - 1)
          with ((len T - i - 1) + 1 * size) by lia.
        rewrite Nat.div_add by lia.
        rewrite !Nat.div_small by lia. reflexivity.
    + replace (len T - i + size - 1) with (size - 1) by lia.
      symmetry. apply Nat.div_small. lia.
Qed.

Lemma range_from_nth (fuel i k : nat) :
  k < List.length (range_from fuel i (len T) size) ->
  nth k (range_from fuel i (len T) size) 0 = i + k * size
  /\ i + k * size < len T.
Proof.
  revert i k; induction fuel as [|fuel IH]; intros i k; simpl.
  - lia.
  - destruct (Nat.ltb_spec i (len T)) as [Hlt|Hge]; simpl; [|lia].
    destruct k as [|k]; intros Hk.
    + lia.
    + destruct (IH (i + size) k) as [E L]; [lia|].
      rewrite E. lia.
Qed.

Lemma chunks_of_nth (k : nat) :
  k < List.length (chunks_of size T) ->
  nth k (chunks_of size T) [] = slice T (k * size) (k * size + size)
  /\ k * size < len T.
Proof.
  unfold chunks_of, range3. rewrite length_map. intros Hk.
  destruct (range_from_nth _ _ Hk) as [E L].
  rewrite nth_indep with (d' := chunk_at 0) by (rewrite length_map; exact Hk).
  rewrite (map_nth chunk_at), E. simpl. split; [reflexivity | exact L].
Qed.

Lemma chunks_of_concat : List.concat (chunks_of size T) = T.
Proof.
  unfold chunks_of, range3.
  change (fun i => slice T i (i + size)) with chunk_at.
  rewrite range_from_concat by lia. reflexivity.
Qed.

Lemma chunks_of_length :
  List.length (chunks_of size T) = (len T + size - 1) / size.
Proof.
  unfold chunks_of, range3. rewrite length_map, range_from_length by lia.
  rewrite Nat.sub_0_r. reflexivity.
Qed.

Lemma chunks_of_full (k : nat) :
  S k < List.length (chunks_of size T) ->
  len (nth k (chunks_of size T) []) = size.
Proof.
  intros Hk.
  destruct (chunks_of_nth (k := k)) as [E _]; [lia|].
  destruct (chunks_of_nth Hk) as [_ L].
  rewrite E. pose proof (chunk_at_length (k * size)) as C.
  unfold chunk_at in C. unfold len in *. simpl in L. lia.
Qed.

Lemma chunks_of_last_bounds (k : nat) :
  k < List.length (chunks_of size T) ->
  1 <= len (nth k (chunks_of size T) []) <= size.
Proof.
  intros Hk. destruct (chunks_of_nth Hk) as [E L].
  rewrite E. pose proof (chunk_at_length (k * size)) as C.
  unfold chunk_at in C. unfold len in *. lia.
Qed.

Lemma ceil_bounds :
  len T <= (len T + size - 1) / size * size < len T + size.
Proof.
  pose proof (Nat.div_mod_eq (len T + size - 1) size) as E.
  pose proof (Nat.mod_upper_bound (len T + size - 1) size) as U.
  nia.
Qed.

End Chunking.

Lemma max_chunk_size_pos : 0 < max_chunk_size.
Proof. apply Nat.lt_0_succ. Qed.

(** C2. The chunks of a text, concatenated in order, give the text back;
    chunk number [k] is the slice [T[3000k : 3000k+3000]], so the chunks
    are contiguous and do not overlap; every chunk but the last has
    exactly 3000 characters and none is empty or longer; their number is
    the ceiling of [len(T) / 3000]. *)
Theorem C2_chunking (T : str) :
  let chunks := chunks_of max_chunk_size T in
  List.concat chunks = T
  /\ (forall k, k < List.length chunks ->
        nth k chunks [] = slice T (k * max_chunk_size) (k * max_chunk_size + max_chunk_size))
  /\ (forall k, S k < List.length chunks -> len (nth k chunks []) = max_chunk_size)
  /\ (forall k, k < List.length chunks -> 1 <= len (nth k chunks []) <= max_chunk_size)
  /\ List.length chunks = (len T + max_chunk_size - 1) / max_chunk_size
  /\ len T <= List.length chunks * max_chunk_size < len T + max_chunk_size.
Proof.
  pose proof max_chunk_size_pos as P.
  cbv zeta. repeat split.
  - apply chunks_of_concat; exact P.
  - intros k Hk. apply chunks_of_nth; assumption.
  - intros k Hk. apply chunks_of_full; assumption.
  - apply chunks_of_last_bounds; assumption.
  - apply chunks_of_last_bounds; assumption.
  - apply chunks_of_length; exact P.
  - rewrite chunks_of_length by exact P. apply ceil_bounds; exact P.
  - rewrite chunks_of_length by exact P. apply ceil_bounds; exact P.
Qed.

(** ** The classifier *)

Section FirstMaximum.

Variable A : Type.
Variable key : A -> nat.
Variable d : A.

Let step (best y : A) : A := if key best <? key y then y else best.

Lemma fold_step_first_max (l pre : list A) (i : nat) :
  first_max key d pre i ->
  exists i', first_max key d (pre ++ l) i'
             /\ fold_left step l (nth i pre d) = nth i' (pre ++ l) d.
Proof.
  revert pre i; induction l as [|y l IH]; intros pre i (Hi & Hmax & Hfirst).
  - exists i. rewrite app_nil_r. repeat split; assumption.
  - simpl. replace (pre ++ y :: l) with ((pre ++ [y]) ++ l)
      by (rewrite <- app_assoc; reflexivity).
    unfold step at 2.
    destruct (Nat.ltb_spec (key (nth i pre d)) (key y)) as [Hlt|Hge].
    + assert (Ey : nth (List.length pre) (pre ++ [y]) d = y)
        by (rewrite app_nth2, Nat.sub_diag by lia; reflexivity).
      enough (F : first_max key d (pre ++ [y]) (List.length pre)).
      { destruct (IH _ _ F) as (i' & F' & E). rewrite Ey in E.
        exists i'. split; assumption. }
      unfold first_max. rewrite length_app, Ey. simpl.
      repeat split.
      * lia.
      * intros j Hj. destruct (Nat.eq_dec j (List.length pre)) as [->|Hne].
        -- rewrite app_nth2, Nat.sub_diag by lia. simpl. lia.
        -- rewrite app_nth1 by lia. specialize (Hmax j). lia.
      * intros j Hj. rewrite app_nth1 by lia. specialize (Hmax j). lia.
    + replace (nth i pre d) with (nth i (pre ++ [y]) d)
        by (apply app_nth1; exact Hi).
      apply IH. unfold first_max. rewrite length_app. simpl.
      rewrite (app_nth1 pre [y] d Hi). repeat split.
      * lia.
      * intros j Hj. destruct (Nat.eq_dec j (List.length pre)) as [->|Hne].
        -- rewrite app_nth2, Nat.sub_diag by lia. simpl. exact Hge.
        -- rewrite app_nth1 by lia. apply Hmax. lia.
      * intros j Hj. rewrite app_nth1 by lia. apply Hfirst. exact Hj.
Qed.

Lemma max_by_first_max (l : list A) :
  l <> [] -> exists i, first_max key d l i /\ max_by key l = Val (nth i l d).
Proof.
  destruct l as [|x l]; [congruence|]; intros _.
  destruct (@fold_step_first_max l [x] 0) as (i & Hi & E).
  - unfold first_max; simpl. repeat split; try lia.
    intros [|j] Hj; [lia | simpl in Hj; lia].
  - exists i. split; [exact Hi|]. unfold max_by. simpl in E.
    unfold step in E. rewrite E. reflexivity.
Qed.

End FirstMaximum.

Lemma count_from_bound (sub s : str) (skip : nat) :
  sub <> [] -> count_from sub s skip * len sub <= len s - skip.
Proof.
  intros Hsub.
  assert (Hstart : forall p t, startswith p t = true -> len p <= len t).
  { induction p as [|x p IH]; intros [|y t]; simpl; try lia; try discriminate.
    rewrite andb_true_iff. intros [_ H]. apply IH in H. unfold len in *. lia. }
  revert skip; induction s as [|c s IH]; intros skip; [simpl; lia|].
  cbn [count_from]. destruct skip as [|k].
  - destruct (startswith sub (c :: s)) eqn:E.
    + apply Hstart in E. specialize (IH (len sub - 1)).
      destruct sub as [|x sub]; [congruence|]. unfold len in *. simpl in *. nia.
    + specialize (IH 0). unfold len in *. simpl. lia.
  - specialize (IH k). unfold len in *. simpl. lia.
Qed.

Lemma detect_content_type_first_max (T : str) :
  exists i,
    i < 5
    /\ detect_content_type T = Val (nth i categories [])
    /\ (forall j, j < 5 -> score_nth T j <= score_nth T i)
    /\ (forall j, j < i -> score_nth T j < score_nth T i).
Proof.
  destruct (@max_by_first_max (str * nat) (@snd str nat) (@pair str nat [] 0)
              (scores_of (lower T)))
    as (i & (Hi & Hmax & Hfirst) & E); [discriminate|].
  assert (Hi5 : i < 5) by exact Hi.
  assert (Hsnd : forall j, j < 5 ->
            snd (nth j (scores_of (lower T)) (@pair str nat [] 0)) = score_nth T j).
  { intros j Hj. do 5 (destruct j as [|j]; [reflexivity|]). lia. }
  assert (Hfst : forall j, j < 5 ->
            fst (nth j (scores_of (lower T)) (@pair str nat [] 0))
            = nth j categories []).
  { intros j Hj. do 5 (destruct j as [|j]; [reflexivity|]). lia. }
  exists i. split; [exact Hi5|]. split.
  - unfold detect_content_type. cbv zeta. rewrite E. unfold res_bind.
    rewrite Hfst by exact Hi5. reflexivity.
  - split.
    + intros j Hj. rewrite <- !Hsnd by assumption. apply Hmax. exact Hj.
    + intros j Hj. rewrite <- !Hsnd by lia. apply Hfirst. exact Hj.
Qed.

(** C4. [detect_content_type] never raises: on every text, the empty one
    included, it returns one of the five categories, number [i] of the
    declaration order, whose score (the sum of the counts of its keywords
    in the lower-cased text, occurrences counted without overlap) is at
    least every category's score and strictly above the score of every
    category declared before it; with no keyword anywhere the answer is
    the first category, [technical]. *)
Theorem C4_detect_content_type_first_maximum (T : str) :
  keys markers = categories
  /\ (forall s sub, sub <> [] -> count s sub * len sub <= len s)
  /\ (exists i,
        i < 5
        /\ detect_content_type T = Val (nth i categories [])
        /\ (forall j, j < 5 -> score_nth T j <= score_nth T i)
        /\ (forall j, j < i -> score_nth T j < score_nth T i))
  /\ ((forall j, j < 5 -> score_nth T j = 0) ->
      detect_content_type T = Val (lit "technical"))
  /\ detect_content_type [] = Val (lit "technical").
Proof.
  split; [reflexivity|]. split.
  { intros s sub Hsub. pose proof (count_from_bound s 0 Hsub) as B.
    unfold count. lia. }
  split; [apply detect_content_type_first_max|]. split; [|reflexivity].
  intros Hzero.
  destruct (detect_content_type_first_max T) as (i & Hi & E & _ & Hfirst).
  destruct i as [|i]; [exact E|].
  specialize (Hfirst 0). rewrite !Hzero in Hfirst by lia. lia.
Qed.

(** ** The generation invoker *)

Lemma attempt_once_spec (prompt : str) (attempt : Z) (w : World) :
  let o := double w (argv_of prompt :: spawned w) in
  attempt_once prompt attempt w =
  (Val (option_map strip (succeeded o)),
   mk_world (double w) (argv_of prompt :: spawned w)
            (trace w ++ events_of_attempt prompt attempt o)).
Proof.
  cbv zeta.
  unfold attempt_once, try_except, bind, Popen, communicate, kill, print,
    emit, ret, events_of_attempt, succeeded.
  fold (argv_of prompt).
  cbn [double spawned trace].
  destruct (double w (argv_of prompt :: spawned w)) as [msg|rc out err|];
    cbn [is_Exception is_TimeoutExpired exn_cls exn_str double spawned trace option_map].
  - rewrite <- app_assoc. reflexivity.
  - destruct (rc =? 0)%Z; cbn [double spawned trace option_map];
      rewrite <- ?app_assoc; reflexivity.
  - rewrite <- !app_assoc. reflexivity.
Qed.

Lemma outcomes_S (w w' : World) (prompt : str) (n : nat) :
  double w' = double w ->
  spawned w' = argv_of prompt :: spawned w ->
  outcomes w prompt (S n) =
  double w (argv_of prompt :: spawned w) :: outcomes w' prompt n.
Proof.
  intros Hd Hs. unfold outcomes. cbn [seq map]. f_equal.
  rewrite <- seq_shift, map_map. apply map_ext. intros k.
  unfold nth_outcome. rewrite Hd, Hs. f_equal.
  change (argv_of prompt :: spawned w) with ([argv_of prompt] ++ spawned w).
  rewrite app_assoc. f_equal.
  rewrite <- repeat_cons. reflexivity.
Qed.

(** The loop of [call_llama_with_ollama], attempts numbered from [a]. *)
Lemma for_attempts_spec (prompt : str) (max_retries : Z) (n a : nat) (w : World) :
  let outs := outcomes w prompt n in
  for_attempts prompt max_retries (map Z.of_nat (seq a n)) w =
  (Val (result_of outs),
   mk_world (double w)
            (repeat (argv_of prompt) (attempts_made outs) ++ spawned w)
            (trace w ++ events_of_run prompt max_retries a outs)).
Proof.
  cbv zeta. revert a w; induction n as [|n IH]; intros a w.
  - cbn. rewrite app_nil_r. destruct w; reflexivity.
  - cbn [seq map for_attempts]. unfold bind at 1.
    rewrite attempt_once_spec. cbv zeta.
    set (o := double w (argv_of prompt :: spawned w)).
    set (w1 := mk_world _ _ _).
    rewrite (@outcomes_S w w1 prompt n eq_refl eq_refl). fold o.
    unfold result_of. cbn [first_success attempts_made events_of_run].
    destruct (succeeded o) as [out|] eqn:Eo; cbn [option_map].
    + unfold ret, w1. cbn [repeat app]. rewrite app_nil_r. reflexivity.
    + unfold bind at 1.
      assert (Esleep :
        (if (Z.of_nat a <? max_retries - 1)%Z then sleep 3 else ret tt) w1 =
        (Val tt, mk_world (double w) (argv_of prompt :: spawned w)
                   (trace w1 ++ (if (Z.of_nat a <? max_retries - 1)%Z
                                 then [ESleep 3] else [])))).
      { destruct (Z.of_nat a <? max_retries - 1)%Z;
          unfold sleep, emit, ret, w1; cbn [double spawned trace];
          rewrite ?app_nil_r; reflexivity. }
      rewrite Esleep. clear Esleep.
      set (w2 := mk_world _ _ (trace w1 ++ _)).
      specialize (IH (S a) w2).
      assert (Eo2 : outcomes w2 prompt n = outcomes w1 prompt n) by reflexivity.
      rewrite Eo2 in IH. rewrite IH.
      unfold result_of, w2, w1. cbn [double spawned trace].
      f_equal. f_equal.
      * change (argv_of prompt :: spawned w) with ([argv_of prompt] ++ spawned w).
        rewrite app_assoc, <- repeat_cons. reflexivity.
      * rewrite <- !app_assoc. reflexivity.
Qed.

Lemma call_llama_with_ollama_spec (prompt : str) (max_retries : Z) (w : World) :
  let outs := outcomes w prompt (Z.to_nat max_retries) in
  call_llama_with_ollama prompt max_retries w =
  (Val (result_of outs),
   mk_world (double w)
            (repeat (argv_of prompt) (attempts_made outs) ++ spawned w)
            (trace w ++ events_of_run prompt max_retries 0 outs)).
Proof. apply for_attempts_spec. Qed.

Lemma schedule_of_app (xs ys : list Event) :
  schedule_of (xs ++ ys) = schedule_of xs ++ schedule_of ys.
Proof. apply filter_app. Qed.

Lemma schedule_of_attempt (prompt : str) (attempt : Z) (o : Outcome) :
  schedule_of (events_of_attempt prompt attempt o) = [EPopen (argv_of prompt)].
Proof.
  unfold events_of_attempt.
  destruct o as [msg|rc out err|]; [| destruct (rc =? 0)%Z |]; reflexivity.
Qed.

Lemma new_events_app (w w' : World) (evs : list Event) :
  trace w' = trace w ++ evs -> new_events w w' = evs.
Proof.
  intros E. unfold new_events. rewrite E, skipn_app, skipn_all, Nat.sub_diag.
  reflexivity.
Qed.

Lemma new_events_mk (w : World) d h (evs : list Event) :
  new_events w (mk_world d h (trace w ++ evs)) = evs.
Proof. apply new_events_app. reflexivity. Qed.

Lemma first_success_failures (fails rest : list Outcome) :
  Forall failed fails ->
  first_success (fails ++ rest) = first_success rest
  /\ attempts_made (fails ++ rest) = List.length fails + attempts_made rest.
Proof.
  induction 1 as [|o fails Ho _ [IH1 IH2]]; [split; reflexivity|].
  cbn [app first_success attempts_made List.length]. rewrite Ho, IH1, IH2.
  split; reflexivity.
Qed.

(** Every attempt fails and the last one is attempt [max_retries - 1]. *)
Lemma schedule_all_failed (prompt : str) (max_retries : Z) (fails : list Outcome) :
  Forall failed fails ->
  forall a, Z.of_nat (a + List.length fails) = max_retries ->
  schedule_of (events_of_run prompt max_retries a fails)
  = backoff_schedule (argv_of prompt) (List.length fails).
Proof.
  induction 1 as [|o fails Ho Hfails IH]; intros a Ha; [reflexivity|].
  cbn [events_of_run List.length backoff_schedule]. rewrite Ho.
  rewrite !schedule_of_app, schedule_of_attempt. cbn [app]. f_equal.
  destruct fails as [|o' fails].
  - destruct (Z.ltb_spec (Z.of_nat a) (max_retries - 1)) as [L|_]; [|reflexivity].
    cbn [List.length] in Ha. lia.
  - destruct (Z.ltb_spec (Z.of_nat a) (max_retries - 1)) as [_|L].
    + cbn [schedule_of filter app List.length]. f_equal.
      apply (IH (S a)). cbn [List.length] in *. lia.
    + cbn [List.length] in Ha. lia.
Qed.

(** Some failures, each followed by a wait, then a success. *)
Lemma schedule_until_success (prompt : str) (max_retries : Z)
    (fails : list Outcome) (o : Outcome) (out : str) (rest : list Outcome) :
  Forall failed fails ->
  succeeded o = Some out ->
  forall a, (Z.of_nat (a + List.length fails) < max_retries)%Z ->
  schedule_of (events_of_run prompt max_retries a (fails ++ o :: rest))
  = backoff_schedule (argv_of prompt) (S (List.length fails)).
Proof.
  intros Hfails Ho.
  induction Hfails as [|o' fails Ho' Hfails IH]; intros a Ha.
  - cbn [app events_of_run List.length backoff_schedule]. rewrite Ho.
    rewrite app_nil_r. apply schedule_of_attempt.
  - cbn [app events_of_run List.length]. rewrite Ho'.
    rewrite !schedule_of_app, schedule_of_attempt.
    destruct (Z.ltb_spec (Z.of_nat a) (max_retries - 1)) as [_|L].
    + rewrite IH by (cbn [List.length] in Ha; lia). reflexivity.
    + cbn [List.length] in Ha. lia.
Qed.

Lemma backoff_schedule_counts (argv : list str) (n : nat) :
  List.length (filter (fun e => match e with EPopen _ => true | _ => false end)
                      (backoff_schedule argv n)) = n
  /\ List.length (filter (fun e => match e with ESleep _ => true | _ => false end)
                         (backoff_schedule argv n)) = n - 1.
Proof.
  induction n as [|n [IH1 IH2]]; [split; reflexivity|].
  destruct n as [|n]; [split; reflexivity|].
  remember (S n) as m. cbn [backoff_schedule]. subst m.
  cbn [filter List.length]. rewrite IH1, IH2. split; lia.
Qed.

Lemma outcomes_failed (w : World) (prompt : str) (N : nat) :
  (forall k, k < N -> failed (nth_outcome w prompt k)) ->
  Forall failed (outcomes w prompt N).
Proof.
  intros H. unfold outcomes. apply Forall_forall. intros o Ho.
  apply in_map_iff in Ho. destruct Ho as (k & <- & Hk).
  apply in_seq in Hk. apply H. lia.
Qed.

Lemma outcomes_length (w : World) (prompt : str) (n : nat) :
  List.length (outcomes w prompt n) = n.
Proof. unfold outcomes. rewrite length_map, length_seq. reflexivity. Qed.

Lemma outcomes_snoc (w : World) (prompt : str) (n : nat) :
  outcomes w prompt (S n) = outcomes w prompt n ++ [nth_outcome w prompt n].
Proof. unfold outcomes. rewrite seq_S, map_app. reflexivity. Qed.

(** C1. Let the external process fail at the next [N] attempts of a
    prompt and end with status 0 and output [out] at the one after.
    With [max_retries = N + 1] the invoker returns [out] stripped, after
    [N + 1] attempts with a wait of 3 after each of the first [N].  With
    [max_retries = N] it returns the failure sentinel after exactly [N]
    attempts, with a wait of 3 between consecutive attempts and none after
    the last. *)
Theorem C1_retries_then_success_or_sentinel
    (w : World) (prompt out : str) (N : nat) :
  (forall k, k < N -> failed (nth_outcome w prompt k)) ->
  (exists err, nth_outcome w prompt N = Exits 0 out err) ->
  (exists w1,
      call_llama_with_ollama prompt (Z.of_nat N + 1) w = (Val (strip out), w1)
      /\ spawned w1 = repeat (argv_of prompt) (N + 1) ++ spawned w
      /\ schedule_of (new_events w w1) = backoff_schedule (argv_of prompt) (N + 1))
  /\ (exists w2,
      call_llama_with_ollama prompt (Z.of_nat N) w = (Val FAILED, w2)
      /\ spawned w2 = repeat (argv_of prompt) N ++ spawned w
      /\ schedule_of (new_events w w2) = backoff_schedule (argv_of prompt) N).
Proof.
  intros Hfail [err Hok].
  pose proof (outcomes_failed w prompt Hfail) as F.
  pose proof (outcomes_length w prompt N) as L.
  assert (Hs : succeeded (Exits 0 out err) = Some out) by reflexivity.
  split.
  - eexists. rewrite call_llama_with_ollama_spec. cbv zeta.
    replace (Z.to_nat (Z.of_nat N + 1)) with (S N) by lia.
    rewrite outcomes_snoc, Hok.
    destruct (first_success_failures [Exits 0 out err] F) as [E1 E2].
    unfold result_of. rewrite E1, E2, L. cbn [first_success attempts_made succeeded].
    cbn [Z.eqb]. split; [reflexivity|]. cbn [spawned]. split; [reflexivity|].
    rewrite new_events_mk.
    rewrite (schedule_until_success prompt _ [] F Hs) by (rewrite L; lia).
    rewrite L. replace (N + 1) with (S N) by lia. reflexivity.
  - eexists. rewrite call_llama_with_ollama_spec. cbv zeta.
    rewrite Nat2Z.id.
    destruct (first_success_failures [] F) as [E1 E2].
    rewrite app_nil_r in E1, E2.
    unfold result_of. rewrite E1, E2, L. cbn [first_success attempts_made].
    split; [reflexivity|]. cbn [spawned]. rewrite Nat.add_0_r.
    split; [reflexivity|].
    rewrite new_events_mk.
    rewrite (schedule_all_failed prompt F) by (rewrite L; lia).
    rewrite L. reflexivity.
Qed.

Lemma C1_witness :
  (exists w1,
      call_llama_with_ollama (lit "p") 3 hangs_twice = (Val (lit "an answer"), w1)
      /\ spawned w1 = repeat (argv_of (lit "p")) 3
      /\ schedule_of (new_events hangs_twice w1)
         = [EPopen (argv_of (lit "p")); ESleep 3;
            EPopen (argv_of (lit "p")); ESleep 3;
            EPopen (argv_of (lit "p"))])
  /\ (exists w2,
      call_llama_with_ollama (lit "p") 2 hangs_twice = (Val FAILED, w2)
      /\ spawned w2 = repeat (argv_of (lit "p")) 2
      /\ schedule_of (new_events hangs_twice w2)
         = [EPopen (argv_of (lit "p")); ESleep 3; EPopen (argv_of (lit "p"))]).
Proof.
  apply (@C1_retries_then_success_or_sentinel hangs_twice (lit "p")
           (lit "  an answer " ++ [LF]) 2).
  - intros k Hk. destruct k as [|[|k]]; [reflexivity | reflexivity | lia].
  - exists []. reflexivity.
Defined.

(** ** Chunk results and aggregation *)

Lemma call_default (prompt : str) (w : World) :
  call_llama_with_ollama prompt default_max_retries w
  = (Val (call_result prompt w), after_call prompt w).
Proof. apply call_llama_with_ollama_spec. Qed.

Lemma for_chunks_spec (prompt_template : str) (chunks : list str) :
  forall (full_explanation : list str) (w : World),
  for_chunks prompt_template chunks full_explanation w
  = (Val (full_explanation ++ kept (fst (chunk_results prompt_template chunks w))),
     snd (chunk_results prompt_template chunks w)).
Proof.
  induction chunks as [|chunk rest IH]; intros acc w.
  - cbn. rewrite app_nil_r. reflexivity.
  - cbn [for_chunks chunk_results]. unfold bind at 1.
    fold (prompt_of prompt_template chunk). rewrite call_default.
    destruct (chunk_results prompt_template rest
                (after_call (prompt_of prompt_template chunk) w))
      as [results w'] eqn:E.
    cbn [fst snd kept filter].
    destruct (negb (str_eqb (call_result (prompt_of prompt_template chunk) w) FAILED));
      rewrite IH, E; cbn [fst snd]; [rewrite <- app_assoc|]; reflexivity.
Qed.

Lemma for_levels_spec (chunks : list str) (items : list (str * str)) :
  forall (explanations : dict str) (w : World),
  for_levels items chunks explanations w
  = (Val (fold_left set_explanation (fst (tier_results items chunks w)) explanations),
     snd (tier_results items chunks w)).
Proof.
  induction items as [|[level prompt_template] rest IH]; intros explanations w.
  - reflexivity.
  - cbn [for_levels tier_results]. unfold bind at 1.
    rewrite for_chunks_spec.
    destruct (chunk_results prompt_template chunks w) as [results w1].
    cbn [fst snd app].
    rewrite IH. destruct (tier_results rest chunks w1) as [others w2].
    cbn [fst snd fold_left].
    change (set_explanation explanations (level, results))
      with (dict_set explanations level (aggregate results)).
    unfold aggregate. destruct (kept results); reflexivity.
Qed.

Lemma generate_prompts_shape (content_type : str) :
  exists pb pi pa,
    generate_prompts content_type
    = Val [(lit "beginner", pb); (lit "intermediate", pi); (lit "advanced", pa)].
Proof.
  unfold generate_prompts, getitem.
  change (dict_get base_prompts (lit "educational"))
    with (Some (nth 3 (map snd base_prompts) [])).
  unfold res_bind, get_default, base_prompts.
  cbn [dict_get].
  repeat match goal with
         | |- context [if ?b then _ else _] => destruct b
         end; do 3 eexists; reflexivity.
Qed.

Lemma tier_results_three (pb pi pa : str) (chunks : list str) (w : World) :
  exists rb ri ra,
    fst (tier_results [(lit "beginner", pb); (lit "intermediate", pi);
                       (lit "advanced", pa)] chunks w)
    = [(lit "beginner", rb); (lit "intermediate", ri); (lit "advanced", ra)].
Proof.
  cbn [tier_results].
  destruct (chunk_results pb chunks w) as [rb w1].
  destruct (chunk_results pi chunks w1) as [ri w2].
  destruct (chunk_results pa chunks w2) as [ra w3].
  exists rb, ri, ra. reflexivity.
Qed.

Lemma generate_explanations_spec (T : str) (w : World) :
  exists content_type prompts,
    detect_content_type T = Val content_type
    /\ In content_type categories
    /\ generate_prompts content_type = Val prompts
    /\ map fst prompts = tiers
    /\ let chunks := chunks_of max_chunk_size T in
       let w0 := after_detection content_type w in
       generate_explanations T w
       = (Val (map (fun tier => (fst tier, aggregate (snd tier)))
                   (fst (tier_results prompts chunks w0)),
               content_type),
          snd (tier_results prompts chunks w0)).
Proof.
  destruct (detect_content_type_first_max T) as (i & Hi & Edetect & _).
  destruct (generate_prompts_shape (nth i categories [])) as (pb & pi & pa & Ep).
  exists (nth i categories []), [(lit "beginner", pb); (lit "intermediate", pi);
                                  (lit "advanced", pa)].
  split; [exact Edetect|]. split; [apply nth_In; exact Hi|].
  split; [exact Ep|]. split; [reflexivity|].
  cbv zeta. unfold generate_explanations, bind, lift, print, emit.
  rewrite Edetect, Ep. fold (after_detection (nth i categories []) w).
  rewrite for_levels_spec.
  destruct (tier_results_three pb pi pa (chunks_of max_chunk_size T)
              (after_detection (nth i categories []) w)) as (rb & ri & ra & Er).
  rewrite Er. reflexivity.
Qed.

Lemma kept_not_failed (results : list str) :
  Forall (fun r => r <> FAILED) results -> kept results = results.
Proof.
  induction 1 as [|r results Hr _ IH]; [reflexivity|].
  unfold kept in *. cbn [filter].
  apply str_eqb_neq in Hr. rewrite Hr, IH. reflexivity.
Qed.

Lemma kept_all_failed (n : nat) : kept (repeat FAILED n) = [].
Proof.
  induction n as [|n IH]; [reflexivity|].
  unfold kept in *. cbn [repeat filter]. rewrite str_eqb_refl. exact IH.
Qed.

(** C3. The explanation of every tier is the aggregate of that tier's
    chunk results (the values the invoker returned, in chunk order): the
    results equal to the failure sentinel are dropped and the others are
    joined by a blank line in their order, or, when none is left, the
    explanation is "No explanation generated.".  So the results
    [ok1, FAILED, ok2] give [ok1], a blank line, [ok2], and results that
    are all the sentinel give the fixed text. *)
Theorem C3_aggregation (T : str) (w : World) :
  (forall prompt w0,
     call_llama_with_ollama prompt default_max_retries w0
     = (Val (call_result prompt w0), after_call prompt w0))
  /\ (exists content_type prompts,
        detect_content_type T = Val content_type
        /\ generate_prompts content_type = Val prompts
        /\ map fst prompts = tiers
        /\ fst (generate_explanations T w)
           = Val (map (fun tier => (fst tier, aggregate (snd tier)))
                      (fst (tier_results prompts (chunks_of max_chunk_size T)
                              (after_detection content_type w))),
                  content_type))
  /\ (forall results,
        aggregate results
        = match kept results with
          | [] => lit "No explanation generated."
          | _ :: _ => join [LF; LF] (kept results)
          end)
  /\ (forall results r, In r (kept results) <-> In r results /\ r <> FAILED)
  /\ (forall ok1 ok2, ok1 <> FAILED -> ok2 <> FAILED ->
        aggregate [ok1; FAILED; ok2] = ok1 ++ [LF; LF] ++ ok2)
  /\ (forall n, aggregate (repeat FAILED n) = lit "No explanation generated.").
Proof.
  split; [intros; apply call_default|]. split.
  { destruct (generate_explanations_spec T w)
      as (content_type & prompts & E1 & _ & E2 & E3 & E4).
    exists content_type, prompts. cbv zeta in E4. rewrite E4.
    repeat split; assumption. }
  split; [reflexivity|]. split.
  { intros results r. unfold kept. rewrite filter_In, negb_true_iff, str_eqb_neq.
    reflexivity. }
  split.
  - intros ok1 ok2 H1 H2. unfold aggregate, kept. cbn [filter].
    apply str_eqb_neq in H1, H2. rewrite H1, H2, str_eqb_refl. reflexivity.
  - intros n. unfold aggregate. rewrite kept_all_failed. reflexivity.
Qed.

(** ** The sentinel and the chunks it excludes *)

Lemma first_success_none (outs : list Outcome) :
  first_success outs = None <-> Forall failed outs.
Proof.
  induction outs as [|o outs IH]; cbn [first_success].
  - split; [constructor | reflexivity].
  - destruct (succeeded o) as [out|] eqn:E.
    + split; [discriminate|]. intros H. inversion H as [|? ? Ho _].
      unfold failed in Ho. congruence.
    + rewrite IH. split; [intros H; constructor; assumption|].
      intros H. inversion H. assumption.
Qed.

Lemma excluded_iff (prompt_template chunk : str) (w : World) :
  excluded prompt_template chunk w
  <-> call_result (prompt_of prompt_template chunk) w = FAILED.
Proof.
  unfold excluded. rewrite for_chunks_spec. cbn [chunk_results fst app kept filter].
  destruct (str_eqb (call_result (prompt_of prompt_template chunk) w) FAILED) eqn:E;
    cbn [negb].
  - apply str_eqb_eq in E. split; [intros _; exact E | reflexivity].
  - apply str_eqb_neq in E. split; [discriminate | contradiction].
Qed.

(** C6, as stated, fails: with a process that succeeds at the first
    attempt and prints the sentinel sentence, the chunk is excluded
    although its generation did not fail. *)
Lemma C6_counterexample :
  excluded (lit "Explain: ") (lit "notes") parrot
  /\ nth_outcome parrot (prompt_of (lit "Explain: ") (lit "notes")) 0
     = Exits 0 (FAILED ++ [LF]) []
  /\ ~ generation_failed (lit "Explain: ") (lit "notes") parrot
  /\ ~ (forall prompt_template chunk w,
          excluded prompt_template chunk w
          <-> generation_failed prompt_template chunk w).
Proof.
  assert (E : excluded (lit "Explain: ") (lit "notes") parrot) by reflexivity.
  assert (N : ~ generation_failed (lit "Explain: ") (lit "notes") parrot).
  { intros H. inversion H as [|? ? Ho _]. discriminate Ho. }
  split; [exact E|]. split; [reflexivity|]. split; [exact N|].
  intros H. apply N, H, E.
Qed.

(** C6, amended.  A chunk is excluded exactly when the invoker returned
    the sentinel string, that is, when every attempt failed or when the
    first successful attempt printed a text that, stripped, is the
    sentinel sentence itself; a chunk whose generation failed is always
    excluded, and a successful one is kept whenever its stripped output
    differs from the sentinel. *)
Theorem C6_excluded_iff_sentinel_returned (prompt_template chunk : str) (w : World) :
  let outs := outcomes w (prompt_of prompt_template chunk)
                (Z.to_nat default_max_retries) in
  (excluded prompt_template chunk w
   <-> fst (call_llama_with_ollama (prompt_of prompt_template chunk)
              default_max_retries w) = Val FAILED)
  /\ (excluded prompt_template chunk w
      <-> generation_failed prompt_template chunk w
          \/ exists out, first_success outs = Some out /\ strip out = FAILED)
  /\ (forall out, first_success outs = Some out -> strip out <> FAILED ->
        fst (for_chunks prompt_template [chunk] [] w) = Val [strip out]).
Proof.
  cbv zeta. split; [|split].
  - rewrite excluded_iff, call_default. cbn [fst].
    split; [intros ->; reflexivity | intros H; inversion H; reflexivity].
  - rewrite excluded_iff. unfold generation_failed, call_result, result_of.
    rewrite <- first_success_none.
    destruct (first_success _) as [out|].
    + split.
      * intros H. right. exists out. split; [reflexivity | exact H].
      * intros [H|(out' & H & E)]; [discriminate | congruence].
    + split; [intros _; left; reflexivity | reflexivity].
  - intros out E Hne. rewrite for_chunks_spec.
    cbn [chunk_results fst app kept filter]. unfold call_result, result_of.
    rewrite E. apply str_eqb_neq in Hne. rewrite Hne. reflexivity.
Qed.

(** ** Failure is local; one category and three explanations per run *)

Lemma attempts_made_pos (o : Outcome) (outs : list Outcome) :
  1 <= attempts_made (o :: outs).
Proof. cbn [attempts_made]. destruct (succeeded o); lia. Qed.

Lemma after_call_spawned (prompt : str) (w : World) :
  exists l, spawned (after_call prompt w) = l ++ spawned w
            /\ In (argv_of prompt) l.
Proof.
  unfold after_call. cbv zeta. cbn [spawned].
  eexists. split; [reflexivity|].
  change (Z.to_nat default_max_retries) with 3.
  rewrite outcomes_snoc, outcomes_snoc.
  destruct (outcomes w prompt 1) as [|o outs] eqn:E; [discriminate|].
  cbn [app]. pose proof (attempts_made_pos o ((outs ++ [nth_outcome w prompt 1])
                                              ++ [nth_outcome w prompt 2])) as P.
  destruct (attempts_made _) as [|m]; [lia|]. left. reflexivity.
Qed.

Lemma chunk_results_spawned (prompt_template : str) (chunks : list str) :
  forall w, exists l,
    spawned (snd (chunk_results prompt_template chunks w)) = l ++ spawned w
    /\ forall chunk, In chunk chunks ->
         In (argv_of (prompt_of prompt_template chunk)) l.
Proof.
  induction chunks as [|chunk rest IH]; intros w.
  - exists []. split; [reflexivity | intros ? []].
  - cbn [chunk_results].
    destruct (after_call_spawned (prompt_of prompt_template chunk) w)
      as (l1 & E1 & I1).
    destruct (IH (after_call (prompt_of prompt_template chunk) w))
      as (l2 & E2 & I2).
    destruct (chunk_results prompt_template rest _) as [results w'].
    cbn [snd] in *. exists (l2 ++ l1). split.
    + rewrite E2, E1, app_assoc. reflexivity.
    + intros c [<-|Hc]; apply in_or_app; [right; exact I1 | left; auto].
Qed.

Lemma tier_results_spawned (chunks : list str) (items : list (str * str)) :
  forall w, exists l,
    spawned (snd (tier_results items chunks w)) = l ++ spawned w
    /\ forall level prompt_template chunk,
         In (level, prompt_template) items -> In chunk chunks ->
         In (argv_of (prompt_of prompt_template chunk)) l.
Proof.
  induction items as [|[level prompt_template] rest IH]; intros w.
  - exists []. split; [reflexivity | intros ? ? ? []].
  - cbn [tier_results].
    destruct (chunk_results_spawned prompt_template chunks w) as (l1 & E1 & I1).
    destruct (chunk_results prompt_template chunks w) as [results w1].
    destruct (IH w1) as (l2 & E2 & I2).
    destruct (tier_results rest chunks w1) as [others w2].
    cbn [snd] in *. exists (l2 ++ l1). split.
    + rewrite E2, E1, app_assoc. reflexivity.
    + intros lv pt c [H|H] Hc; apply in_or_app.
      * inversion H; subst. right. apply I1. exact Hc.
      * left. eapply I2; eassumption.
Qed.

(** C7. Whatever the external process does at each attempt (a spawn
    error, a return code other than 0, a timeout, or a success), the
    invoker returns a string and raises nothing; so
    [generate_explanations] returns too, and the prompt of every chunk of
    every tier has been given to the process: no failure stops the chunks
    or the tiers that follow. *)
Theorem C7_generation_failure_is_not_fatal (T : str) (w : World) :
  (forall prompt max_retries w0,
     exists s w', call_llama_with_ollama prompt max_retries w0 = (Val s, w'))
  /\ exists explanations content_type prompts w',
       generate_explanations T w = (Val (explanations, content_type), w')
       /\ generate_prompts content_type = Val prompts
       /\ map fst prompts = tiers
       /\ forall level prompt_template chunk,
            In (level, prompt_template) prompts ->
            In chunk (chunks_of max_chunk_size T) ->
            In (argv_of (prompt_of prompt_template chunk)) (spawned w').
Proof.
  split.
  - intros prompt max_retries w0. do 2 eexists.
    apply call_llama_with_ollama_spec.
  - destruct (generate_explanations_spec T w)
      as (content_type & prompts & _ & _ & E2 & E3 & E4).
    cbv zeta in E4.
    destruct (tier_results_spawned (chunks_of max_chunk_size T) prompts
                (after_detection content_type w)) as (l & El & Il).
    do 4 eexists. split; [exact E4|]. split; [exact E2|]. split; [exact E3|].
    intros level prompt_template chunk Hp Hc.
    rewrite El. apply in_or_app. left. eapply Il; eassumption.
Qed.

Lemma attempts_made_le (outs : list Outcome) :
  attempts_made outs <= List.length outs.
Proof.
  induction outs as [|o outs IH]; [reflexivity|].
  cbn [attempts_made List.length]. destruct (succeeded o); lia.
Qed.

Lemma after_call_history (prompt : str) (w : World) :
  exists m, 1 <= m <= 3
    /\ spawned (after_call prompt w) = repeat (argv_of prompt) m ++ spawned w.
Proof.
  unfold after_call. cbv zeta. cbn [spawned].
  set (outs := outcomes w prompt (Z.to_nat default_max_retries)).
  exists (attempts_made outs). split; [|reflexivity].
  pose proof (attempts_made_le outs) as U.
  pose proof (outcomes_length w prompt (Z.to_nat default_max_retries)) as L.
  fold outs in L. change (Z.to_nat default_max_retries) with 3 in L.
  destruct outs as [|o outs']; [discriminate|].
  pose proof (attempts_made_pos o outs'). lia.
Qed.

Lemma rev_repeat_same (A : Type) (x : A) (n : nat) :
  rev (repeat x n) = repeat x n.
Proof.
  induction n as [|n IH]; [reflexivity|].
  cbn [repeat rev]. rewrite IH. symmetry. apply repeat_cons.
Qed.

Lemma combine_app_same (A B : Type) (l1 l2 : list A) (k1 k2 : list B) :
  List.length l1 = List.length k1 ->
  combine (l1 ++ l2) (k1 ++ k2) = combine l1 k1 ++ combine l2 k2.
Proof.
  revert k1; induction l1 as [|a l1 IH]; intros [|b k1] H;
    try discriminate; [reflexivity|].
  cbn. f_equal. apply IH. cbn in H. lia.
Qed.

Lemma spawned_in_order_app (p1 p2 : list str) (k1 k2 : list nat) :
  List.length p1 = List.length k1 ->
  spawned_in_order (p1 ++ p2) (k1 ++ k2)
  = spawned_in_order p1 k1 ++ spawned_in_order p2 k2.
Proof.
  intros H. unfold spawned_in_order.
  rewrite combine_app_same, map_app, concat_app by exact H. reflexivity.
Qed.

Lemma chunk_results_history (prompt_template : str) (chunks : list str) :
  forall w, exists counts,
    List.length counts = List.length chunks
    /\ Forall (fun k => 1 <= k <= 3) counts
    /\ spawned (snd (chunk_results prompt_template chunks w))
       = rev (spawned_in_order (map (prompt_of prompt_template) chunks) counts)
         ++ spawned w.
Proof.
  induction chunks as [|chunk rest IH]; intros w.
  - exists []. repeat split. constructor.
  - cbn [chunk_results].
    destruct (after_call_history (prompt_of prompt_template chunk) w)
      as (m & Hm & E1).
    destruct (IH (after_call (prompt_of prompt_template chunk) w))
      as (counts & Hl & Hb & E2).
    destruct (chunk_results prompt_template rest _) as [results w'].
    cbn [snd] in *. exists (m :: counts).
    split; [cbn; lia|]. split; [constructor; assumption|].
    rewrite E2, E1. unfold spawned_in_order. cbn [map combine List.concat fst snd].
    rewrite rev_app_distr, rev_repeat_same, <- app_assoc. reflexivity.
Qed.

Lemma tier_results_history (chunks : list str) (items : dict str) :
  forall w, exists counts,
    List.length counts = List.length (all_prompts items chunks)
    /\ Forall (fun k => 1 <= k <= 3) counts
    /\ spawned (snd (tier_results items chunks w))
       = rev (spawned_in_order (all_prompts items chunks) counts) ++ spawned w.
Proof.
  induction items as [|[level prompt_template] rest IH]; intros w.
  - exists []. repeat split. constructor.
  - cbn [tier_results all_prompts flat_map snd].
    destruct (chunk_results_history prompt_template chunks w)
      as (k1 & L1 & B1 & E1).
    destruct (chunk_results prompt_template chunks w) as [results w1].
    destruct (IH w1) as (k2 & L2 & B2 & E2).
    destruct (tier_results rest chunks w1) as [others w2].
    cbn [snd] in *. exists (k1 ++ k2).
    split; [rewrite !length_app, L1, L2, length_map; reflexivity|].
    split; [apply Forall_app; split; assumption|].
    rewrite E2, E1.
    rewrite spawned_in_order_app by (rewrite length_map; lia).
    rewrite rev_app_distr, <- app_assoc. reflexivity.
Qed.

Lemma all_prompts_three (pb pi pa : str) (chunks : list str) :
  all_prompts [(lit "beginner", pb); (lit "intermediate", pi);
               (lit "advanced", pa)] chunks
  = map (prompt_of pb) chunks ++ map (prompt_of pi) chunks
    ++ map (prompt_of pa) chunks.
Proof.
  unfold all_prompts. cbn [flat_map snd]. rewrite app_nil_r. reflexivity.
Qed.

Lemma tier_results_chain (pb pi pa : str) (chunks : list str) (w : World) :
  tier_results [(lit "beginner", pb); (lit "intermediate", pi);
                (lit "advanced", pa)] chunks w
  = (let rb := chunk_results pb chunks w in
     let ri := chunk_results pi chunks (snd rb) in
     let ra := chunk_results pa chunks (snd ri) in
     ([(lit "beginner", fst rb); (lit "intermediate", fst ri);
       (lit "advanced", fst ra)], snd ra)).
Proof.
  cbn [tier_results].
  destruct (chunk_results pb chunks w) as [rb w1]. cbn [fst snd].
  destruct (chunk_results pi chunks w1) as [ri w2]. cbn [fst snd].
  destruct (chunk_results pa chunks w2) as [ra w3]. reflexivity.
Qed.

Lemma chunk_results_length (prompt_template : str) (chunks : list str) :
  forall w,
    List.length (fst (chunk_results prompt_template chunks w))
    = List.length chunks.
Proof.
  induction chunks as [|chunk rest IH]; intros w; [reflexivity|].
  cbn [chunk_results].
  specialize (IH (after_call (prompt_of prompt_template chunk) w)).
  destruct (chunk_results prompt_template rest _) as [results w'].
  cbn [fst List.length] in *. rewrite IH. reflexivity.
Qed.

Lemma get_level_is_a_tier (self : QuizApp.QuizApp) (level : str) :
  QuizApp.get_level self = Val level -> In level tiers.
Proof.
  unfold QuizApp.get_level, res_bind.
  destruct (QuizApp.percentage_of self) as [p|e]; [|discriminate].
  intros E. inversion E; subst level; clear E.
  destruct (p <? 40)%float; [left; reflexivity|].
  destruct ((40 <=? p)%float && (p <? 70)%float);
    [right; left; reflexivity | right; right; left; reflexivity].
Qed.

Lemma selected_level_is_a_tier (self : QuizApp.QuizApp) (stdin : list str)
    (level : str) (self' : QuizApp.QuizApp) (unread : list str) :
  QuizRun.start_quiz self stdin = (QuizRun.Level level, self', unread) ->
  In level tiers.
Proof.
  unfold QuizRun.start_quiz. intros Hquiz.
  destruct (QuizRun.for_mcqs (QuizApp.mcqs self) (QuizApp.score self) stdin)
    as [[e s] left].
  destruct e as [e|]; [discriminate|].
  destruct (QuizApp.get_level (QuizApp.mk_quiz (QuizApp.mcqs self) s))
    as [l|e] eqn:Gl; [|discriminate].
  inversion Hquiz; subst. apply (get_level_is_a_tier _ Gl).
Qed.

(** C8. One run computes one category, one of the five, and returns a
    dictionary with exactly the keys [beginner], [intermediate] and
    [advanced], once each and in that order.  The explanation under each
    key is generated: it is the aggregate of the results the invoker
    returned for the chunks of the text under the prompt of that tier in
    the row of the category, one result per chunk, the tiers taken one
    after the other; and the command lines the run has spawned are those of
    the prompts of the three tiers, tier by tier and chunk by chunk, each
    attempted at least once, so a text of [n] chunks is sent [3n] times or
    more.  The function takes the text alone: whatever level a quiz
    returns, it is one of the three keys, and the two other tiers are
    generated as well. *)
Theorem C8_one_category_three_explanations (T : str) (w : World) :
  let chunks := chunks_of max_chunk_size T in
  exists content_type pb pi pa counts,
    detect_content_type T = Val content_type
    /\ In content_type categories
    /\ generate_prompts content_type
       = Val [(lit "beginner", pb); (lit "intermediate", pi);
              (lit "advanced", pa)]
    /\ let rb := chunk_results pb chunks (after_detection content_type w) in
       let ri := chunk_results pi chunks (snd rb) in
       let ra := chunk_results pa chunks (snd ri) in
       let explanations :=
         [(lit "beginner", aggregate (fst rb));
          (lit "intermediate", aggregate (fst ri));
          (lit "advanced", aggregate (fst ra))] in
       generate_explanations T w = (Val (explanations, content_type), snd ra)
       /\ List.length (fst rb) = List.length chunks
       /\ List.length (fst ri) = List.length chunks
       /\ List.length (fst ra) = List.length chunks
       /\ List.length counts = 3 * List.length chunks
       /\ Forall (fun k => 1 <= k <= 3) counts
       /\ spawned (snd ra)
          = rev (spawned_in_order
                   (map (prompt_of pb) chunks ++ map (prompt_of pi) chunks
                    ++ map (prompt_of pa) chunks) counts)
            ++ spawned w
       /\ forall self stdin level self' unread,
            QuizRun.start_quiz self stdin = (QuizRun.Level level, self', unread) ->
            In level (map fst explanations).
Proof.
  cbv zeta.
  destruct (generate_explanations_spec T w)
    as (content_type & prompts & E1 & Hin & E2 & E3 & E4).
  cbv zeta in E4.
  destruct (generate_prompts_shape content_type) as (pb & pi & pa & Ep).
  assert (Es : prompts = [(lit "beginner", pb); (lit "intermediate", pi);
                          (lit "advanced", pa)]) by congruence.
  subst prompts.
  destruct (tier_results_history (chunks_of max_chunk_size T)
              [(lit "beginner", pb); (lit "intermediate", pi);
               (lit "advanced", pa)]
              (after_detection content_type w)) as (counts & L & B & E).
  rewrite all_prompts_three in L, E.
  exists content_type, pb, pi, pa, counts.
  split; [exact E1|]. split; [exact Hin|]. split; [exact Ep|].
  rewrite E4. rewrite tier_results_chain in E |- *.
  cbn [fst snd map] in E |- *.
  split; [reflexivity|].
  rewrite !chunk_results_length.
  split; [reflexivity|]. split; [reflexivity|]. split; [reflexivity|].
  split.
  { rewrite L, !length_app, !length_map. lia. }
  split; [exact B|]. split; [exact E|].
  intros self stdin level self' unread Hquiz.
  exact (@selected_level_is_a_tier _ _ _ _ _ Hquiz).
Qed.

(** ** Determinism *)

Lemma same_process_outcomes (w1 w2 : World) (prompt : str) (n : nat) :
  same_process w1 w2 -> outcomes w1 prompt n = outcomes w2 prompt n.
Proof.
  intros H. unfold outcomes. apply map_ext. intros k.
  unfold nth_outcome. apply H. discriminate.
Qed.

Lemma same_process_after_call (w1 w2 : World) (prompt : str) :
  same_process w1 w2 ->
  call_result prompt w1 = call_result prompt w2
  /\ same_process (after_call prompt w1) (after_call prompt w2).
Proof.
  intros H. unfold call_result, after_call. cbv zeta.
  rewrite (same_process_outcomes prompt _ H). split; [reflexivity|].
  intros later Hl. cbn [double spawned]. rewrite !app_assoc. apply H.
  destruct later; [congruence | discriminate].
Qed.

Lemma same_process_chunk_results (prompt_template : str) (chunks : list str) :
  forall w1 w2, same_process w1 w2 ->
  fst (chunk_results prompt_template chunks w1)
  = fst (chunk_results prompt_template chunks w2)
  /\ same_process (snd (chunk_results prompt_template chunks w1))
                  (snd (chunk_results prompt_template chunks w2)).
Proof.
  induction chunks as [|chunk rest IH]; intros w1 w2 H.
  - split; [reflexivity | exact H].
  - cbn [chunk_results].
    destruct (same_process_after_call (prompt_of prompt_template chunk) H)
      as [Ea Hs].
    destruct (IH _ _ Hs) as [E1 E2].
    destruct (chunk_results prompt_template rest
                (after_call (prompt_of prompt_template chunk) w1)).
    destruct (chunk_results prompt_template rest
                (after_call (prompt_of prompt_template chunk) w2)).
    cbn [fst snd] in *. rewrite Ea, E1. split; [reflexivity | exact E2].
Qed.

Lemma same_process_tier_results (chunks : list str) (items : list (str * str)) :
  forall w1 w2, same_process w1 w2 ->
  fst (tier_results items chunks w1) = fst (tier_results items chunks w2)
  /\ same_process (snd (tier_results items chunks w1))
                  (snd (tier_results items chunks w2)).
Proof.
  induction items as [|[level prompt_template] rest IH]; intros w1 w2 H.
  - split; [reflexivity | exact H].
  - cbn [tier_results].
    destruct (same_process_chunk_results prompt_template chunks H) as [E1 H1].
    destruct (chunk_results prompt_template chunks w1) as [r1 v1].
    destruct (chunk_results prompt_template chunks w2) as [r2 v2].
    cbn [fst snd] in *. destruct (IH _ _ H1) as [E2 H2].
    destruct (tier_results rest chunks v1).
    destruct (tier_results rest chunks v2).
    cbn [fst snd] in *. rewrite E1, E2. split; [reflexivity | exact H2].
Qed.

Lemma memoryless_same_process (w w' : World) :
  memoryless w -> double w' = double w -> same_process w w'.
Proof.
  intros M D later Hl. rewrite D.
  destruct later as [|argv later]; [congruence|]. apply M.
Qed.

Lemma generate_explanations_double (T : str) (w : World) :
  double (snd (generate_explanations T w)) = double w.
Proof.
  destruct (generate_explanations_spec T w) as (c & p & _ & _ & _ & _ & G).
  cbv zeta in G. rewrite G. cbn [snd].
  assert (Hc : forall t chunks v, double (snd (chunk_results t chunks v)) = double v).
  { intros t chunks. induction chunks as [|chunk rest IH]; intros v; [reflexivity|].
    cbn [chunk_results]. specialize (IH (after_call (prompt_of t chunk) v)).
    destruct (chunk_results t rest _). cbn [snd] in *. exact IH. }
  assert (Ht : forall items chunks v, double (snd (tier_results items chunks v)) = double v).
  { intros items chunks. induction items as [|[lv t] rest IH]; intros v; [reflexivity|].
    cbn [tier_results]. specialize (Hc t chunks v).
    destruct (chunk_results t chunks v) as [r v1]. specialize (IH v1).
    destruct (tier_results rest chunks v1). cbn [snd] in *. congruence. }
  rewrite Ht. reflexivity.
Qed.

Example by_last_char_memoryless : memoryless by_last_char.
Proof. intros argv earlier earlier'. reflexivity. Qed.

(** C9. Two runs on the same text against the same deterministic
    process (it answers every later sequence of commands alike in both
    runs, whatever else differs, the trace of past effects included)
    return the same category and, tier by tier, the same explanation
    text, and leave the process in states that still behave alike.  In
    particular, against a process without memory, a second run right after
    the first returns what the first returned. *)
Theorem C9_deterministic (T : str) (w1 w2 : World) :
  same_process w1 w2 ->
  fst (generate_explanations T w1) = fst (generate_explanations T w2)
  /\ same_process (snd (generate_explanations T w1))
                  (snd (generate_explanations T w2))
  /\ (memoryless w1 ->
      fst (generate_explanations T (snd (generate_explanations T w1)))
      = fst (generate_explanations T w1)).
Proof.
  assert (Main : forall v1 v2, same_process v1 v2 ->
            fst (generate_explanations T v1) = fst (generate_explanations T v2)
            /\ same_process (snd (generate_explanations T v1))
                            (snd (generate_explanations T v2))).
  { intros v1 v2 H.
    destruct (generate_explanations_spec T v1) as (c1 & p1 & D1 & _ & P1 & _ & G1).
    destruct (generate_explanations_spec T v2) as (c2 & p2 & D2 & _ & P2 & _ & G2).
    cbv zeta in G1, G2.
    assert (c2 = c1) by congruence. subst c2.
    assert (p2 = p1) by congruence. subst p2.
    rewrite G1, G2. cbn [fst snd].
    assert (H0 : same_process (after_detection c1 v1) (after_detection c1 v2))
      by exact H.
    destruct (same_process_tier_results (chunks_of max_chunk_size T) p1 H0)
      as [E Hs].
    rewrite E. split; [reflexivity | exact Hs]. }
  intros H. destruct (Main w1 w2 H) as [E Hs].
  split; [exact E|]. split; [exact Hs|].
  intros M. symmetry. apply Main.
  apply memoryless_same_process; [exact M|].
  apply generate_explanations_double.
Qed.

Lemma C9_witness :
  let w1 := by_last_char in
  let w2 := mk_world (double by_last_char) [] [EPrint (lit "an earlier run")] in
  fst (generate_explanations (lit "some data") w1)
  = fst (generate_explanations (lit "some data") w2)
  /\ same_process (snd (generate_explanations (lit "some data") w1))
                  (snd (generate_explanations (lit "some data") w2))
  /\ (memoryless w1 ->
      fst (generate_explanations (lit "some data")
             (snd (generate_explanations (lit "some data") w1)))
      = fst (generate_explanations (lit "some data") w1)).
Proof.
  apply C9_deterministic. intros later _. reflexivity.
Defined.

(** ** Section rendering *)

Lemma for_sections_spec (sections : list str) :
  forall story, for_sections sections story = story ++ flat_map render_block sections.
Proof.
  induction sections as [|section rest IH]; intros story.
  - cbn. rewrite app_nil_r. reflexivity.
  - cbn [for_sections flat_map]. unfold render_block at 1. cbv zeta.
    unfold is_heading, any_isupper in *.
    destruct (strip section) as [|c block] eqn:E.
    + apply IH.
    + destruct ((len (c :: block) <? 100) && existsb isupper (c :: block));
        rewrite IH, <- app_assoc; reflexivity.
Qed.

Lemma replace_char (c d : ascii) (s : str) :
  replace s [c] [d] = map (fun x => if Ascii.eqb c x then d else x) s.
Proof.
  unfold replace. induction s as [|x s IH]; [reflexivity|].
  cbn [replace_from startswith map len List.length Nat.sub].
  destruct s; cbn [startswith]; rewrite andb_true_r;
    destruct (Ascii.eqb c x); cbn [app]; rewrite IH; reflexivity.
Qed.

Lemma first_refused_app (paragraph_error : str -> Style -> option exn)
    (xs ys : list Flowable) :
  first_refused paragraph_error (xs ++ ys)
  = match first_refused paragraph_error xs with
    | Some e => Some e
    | None => first_refused paragraph_error ys
    end.
Proof.
  induction xs as [|[text style|wd ht] xs IH]; cbn [app first_refused];
    [reflexivity | | exact IH].
  destruct (paragraph_error text style); [reflexivity | exact IH].
Qed.

(** The loop over the sections with the library in it: it raises what the
    first refused paragraph raises, and otherwise gives the flowables of
    [for_sections]. *)
Lemma for_sections_M_spec (paragraph_error : str -> Style -> option exn)
    (sections : list str) :
  forall story w,
  for_sections_M paragraph_error sections story w
  = match first_refused paragraph_error (flat_map render_block sections) with
    | Some e => (Raised e, w)
    | None => (Val (story ++ flat_map render_block sections), w)
    end.
Proof.
  induction sections as [|section rest IH]; intros story w.
  - cbn. rewrite app_nil_r. reflexivity.
  - cbn [for_sections_M flat_map]. unfold render_block at 1 3. cbv zeta.
    unfold is_heading, any_isupper in *.
    destruct (strip section) as [|c block] eqn:E; [apply IH|].
    destruct ((len (c :: block) <? 100) && existsb isupper (c :: block));
      unfold bind, new_Paragraph; rewrite first_refused_app;
      cbn [first_refused];
      match goal with |- context [paragraph_error ?t ?st] =>
        destruct (paragraph_error t st) end;
      try reflexivity; unfold ret; rewrite IH, <- app_assoc; reflexivity.
Qed.

(** [create_level_pdf] for one of the three levels: the story it makes,
    and how it ends. *)
Lemma create_level_pdf_spec (str_title : str -> str)
    (paragraph_error : str -> Style -> option exn)
    (build_error : str -> list Flowable -> option exn)
    (content title level content_type output_filename : str) (w : World) :
  In level tiers ->
  exists level_title,
    dict_get level_titles level = Some level_title
    /\ let story :=
         [Paragraph title Title;
          Paragraph (level_title ++ lit " - " ++ str_title content_type
                     ++ lit " Content") Heading1;
          Spacer 1 (0.3 * inch)%float]
         ++ flat_map render_block (split content [LF; LF]) in
       create_level_pdf str_title paragraph_error build_error content title
         level content_type output_filename w
       = match document_error paragraph_error build_error output_filename
                 story with
         | Some e => (Raised e, w)
         | None =>
             (Val tt,
              mk_world (double w) (spawned w)
                (trace w ++
                 [EBuild output_filename story;
                  EPrint (lit "PDF created: " ++ output_filename)]))
         end.
Proof.
  intros Hl.
  assert (D : exists level_title, dict_get level_titles level = Some level_title).
  { destruct Hl as [<-|[<-|[<-|[]]]]; eexists; reflexivity. }
  destruct D as [level_title D]. exists level_title. split; [exact D|].
  cbv zeta. unfold create_level_pdf, document_error.
  cbn [app first_refused]. unfold bind at 1. unfold new_Paragraph at 1.
  destruct (paragraph_error title Title) as [e|]; [reflexivity|].
  unfold ret at 1. unfold bind at 1. unfold lift, getitem. rewrite D.
  unfold bind at 1. unfold new_Paragraph at 1.
  destruct (paragraph_error _ Heading1) as [e|]; [reflexivity|].
  unfold ret at 1. unfold bind at 1. rewrite for_sections_M_spec.
  destruct (first_refused paragraph_error
              (flat_map render_block (split content [LF; LF]))) as [e|];
    [reflexivity|].
  unfold bind at 1. unfold build.
  cbn [app].
  destruct (build_error output_filename _) as [e|]; [reflexivity|].
  unfold raise, print, emit. cbn [double spawned trace].
  rewrite <- app_assoc. reflexivity.
Qed.

(** C5. The story of a document is its title, its subtitle, a spacer and
    then, for each block of the explanation between blank lines, what
    [render_block] gives; [create_level_pdf] builds that story when the
    document library accepts each of its paragraphs and the build
    succeeds, and otherwise raises what the library raises and builds
    nothing.  [render_block] gives nothing for a block that is blank once
    stripped; for another, a [Topic] paragraph (a heading) exactly when
    the stripped block has fewer than 100 characters and an uppercase one
    among them, and otherwise a [Normal] paragraph in which every line
    break is a space, followed by a spacer.  So "ALGORITHMS" is a heading
    and a block of 150 lowercase letters a normal paragraph. *)
Theorem C5_heading_or_paragraph :
  (forall content story,
     for_sections (split content [LF; LF]) story
     = story ++ flat_map render_block (split content [LF; LF]))
  /\ (forall str_title paragraph_error build_error
             content title level content_type output_filename w,
        In level tiers ->
        exists level_title,
          getitem level_titles level = Val level_title /\
          let subtitle :=
            level_title ++ lit " - " ++ str_title content_type
            ++ lit " Content" in
          let story :=
            [Paragraph title Title; Paragraph subtitle Heading1;
             Spacer 1 (0.3 * inch)%float]
            ++ flat_map render_block (split content [LF; LF]) in
          create_level_pdf str_title paragraph_error build_error
            content title level content_type output_filename w
          = match first_refused paragraph_error story with
            | Some e => (Raised e, w)
            | None =>
                match build_error output_filename story with
                | Some e => (Raised e, w)
                | None =>
                    (Val tt,
                     mk_world (double w) (spawned w)
                       (trace w ++
                        [EBuild output_filename story;
                         EPrint (lit "PDF created: " ++ output_filename)]))
                end
            end)
  /\ (forall section, strip section = [] -> render_block section = [])
  /\ (forall section, strip section <> [] ->
        let block := strip section in
        let short_with_upper :=
          len block < 100 /\ exists c, In c block /\ isupper c = true in
        (render_block section = [Paragraph block Topic] <-> short_with_upper)
        /\ (render_block section
            = [Paragraph (map (fun c => if Ascii.eqb LF c then SP else c) block)
                 Normal;
               Spacer 1 (0.1 * inch)%float]
            <-> ~ short_with_upper))
  /\ render_block (lit "ALGORITHMS") = [Paragraph (lit "ALGORITHMS") Topic]
  /\ (forall section, 100 <= len (strip section) ->
        (forall c, In c (strip section) -> isupper c = false) ->
        render_block section
        = [Paragraph (map (fun c => if Ascii.eqb LF c then SP else c)
                          (strip section)) Normal;
           Spacer 1 (0.1 * inch)%float])
  /\ render_block (repeat "a"%char 150)
     = [Paragraph (repeat "a"%char 150) Normal; Spacer 1 (0.1 * inch)%float].
Proof.
  assert (Hcond : forall block,
            is_heading block = true
            <-> len block < 100 /\ exists c, In c block /\ isupper c = true).
  { intros block. unfold is_heading.
    rewrite andb_true_iff, Nat.ltb_lt, existsb_exists. reflexivity. }
  assert (Hblock : forall section, strip section <> [] ->
            render_block section
            = if is_heading (strip section)
              then [Paragraph (strip section) Topic]
              else [Paragraph (map (fun c => if Ascii.eqb LF c then SP else c)
                                   (strip section)) Normal;
                    Spacer 1 (0.1 * inch)%float]).
  { intros section Hne. unfold render_block. cbv zeta.
    rewrite replace_char. destruct (strip section); [congruence | reflexivity]. }
  split; [intros; apply for_sections_spec|]. split.
  { intros str_title paragraph_error build_error
      content title level content_type output_filename w Hl.
    destruct (create_level_pdf_spec str_title paragraph_error build_error
                content title content_type output_filename w Hl)
      as (level_title & D & E).
    exists level_title. split; [unfold getitem; rewrite D; reflexivity|].
    cbv zeta in E |- *. rewrite E. unfold document_error.
    destruct (first_refused paragraph_error _); [reflexivity|].
    destruct (build_error output_filename _); reflexivity. }
  split.
  { intros section E. unfold render_block. rewrite E. reflexivity. }
  split.
  { intros section Hne. cbv zeta. rewrite (Hblock section Hne), <- Hcond.
    destruct (is_heading (strip section)); split; split;
      try reflexivity; try discriminate; congruence. }
  split; [reflexivity|]. split; [|vm_compute; reflexivity].
  intros section Hlen Hlow.
  rewrite Hblock by (intros E; rewrite E in Hlen; cbn in Hlen; lia).
  destruct (is_heading (strip section)) eqn:E; [|reflexivity].
  apply Hcond in E. lia.
Qed.

(** ** The quiz level *)

Import QuizApp.

(** C10. For every score a quiz can end with, from 0 to the number of
    questions (4), [get_level] returns one level and raises nothing; the
    percentage it computes is exactly [25 * score], and the level is
    [beginner] when that is below 40, [intermediate] when it is at least
    40 and below 70, and [advanced] when it is 70 or more. *)
Theorem C10_get_level_total_and_exclusive (s : Z) :
  (0 <= s <= Z.of_nat (List.length (mcqs init)))%Z ->
  let quiz := mk_quiz (mcqs init) s in
  exists percentage level,
    percentage_of quiz = Val percentage
    /\ percentage = float_of_int (25 * s)
    /\ get_level quiz = Val level
    /\ In level tiers
    /\ ((percentage <? 40)%float = true -> level = lit "beginner")
    /\ ((40 <=? percentage)%float = true -> (percentage <? 70)%float = true ->
        level = lit "intermediate")
    /\ ((70 <=? percentage)%float = true -> level = lit "advanced")
    /\ level = (if (25 * s <? 40)%Z then lit "beginner"
                else if (25 * s <? 70)%Z then lit "intermediate"
                     else lit "advanced").
Proof.
  intros Hs. cbn in Hs. cbv zeta.
  exists (float_of_int (25 * s)),
         (if (25 * s <? 40)%Z then lit "beginner"
          else if (25 * s <? 70)%Z then lit "intermediate"
               else lit "advanced").
  assert (C : (s = 0 \/ s = 1 \/ s = 2 \/ s = 3 \/ s = 4)%Z) by lia.
  destruct C as [-> | [-> | [-> | [-> | ->]]]];
    repeat split; vm_compute; intros;
      try reflexivity; try discriminate; auto 6.
Qed.

Lemma C10_witness :
  exists percentage level,
    percentage_of (mk_quiz (mcqs init) 2) = Val percentage
    /\ percentage = float_of_int (25 * 2)
    /\ get_level (mk_quiz (mcqs init) 2) = Val level
    /\ In level tiers
    /\ ((percentage <? 40)%float = true -> level = lit "beginner")
    /\ ((40 <=? percentage)%float = true -> (percentage <? 70)%float = true ->
        level = lit "intermediate")
    /\ ((70 <=? percentage)%float = true -> level = lit "advanced")
    /\ level = lit "intermediate".
Proof.
  apply (@C10_get_level_total_and_exclusive 2%Z). cbn. lia.
Defined.

(** ** A run on three chunks *)

Example three_chunks_run :
  map len (chunks_of max_chunk_size three_chunks) = [3000; 3000; 1]
  /\ fst (tier_results
            [(lit "beginner", lit "Explain: ")]
            (chunks_of max_chunk_size three_chunks) by_last_char)
     = [(lit "beginner", [lit "ok1"; FAILED; lit "ok2"])]
  /\ fst (generate_explanations three_chunks by_last_char)
     = Val ([(lit "beginner", lit "ok1" ++ [LF; LF] ++ lit "ok2");
             (lit "intermediate", lit "ok1" ++ [LF; LF] ++ lit "ok2");
             (lit "advanced", lit "ok1" ++ [LF; LF] ++ lit "ok2")],
            lit "technical")
  /\ List.length (spawned (snd (generate_explanations three_chunks by_last_char)))
     = 15.
Proof. vm_compute. repeat split; reflexivity. Qed.

(* ================================================================== *)
(** * Further properties of the code *)
(* ================================================================== *)

(** ** Stripping *)

Lemma lstrip_split (s : str) :
  exists ws, s = ws ++ lstrip s /\ forallb isspace ws = true.
Proof.
  induction s as [|c s (ws & E & F)].
  - exists []. split; reflexivity.
  - cbn [lstrip]. destruct (isspace c) eqn:Ec.
    + exists (c :: ws). cbn [app forallb]. rewrite Ec, F, <- E.
      split; reflexivity.
    + exists []. split; reflexivity.
Qed.

Lemma lstrip_head (s : str) (c : ascii) (r : str) :
  lstrip s = c :: r -> isspace c = false.
Proof.
  induction s as [|x s IH]; cbn [lstrip]; [discriminate|].
  destruct (isspace x) eqn:Ex; [exact IH|].
  intros E. inversion E; subst. exact Ex.
Qed.

Lemma lstrip_fixed (s : str) :
  match s with [] => True | c :: _ => isspace c = false end -> lstrip s = s.
Proof. destruct s as [|c s]; [reflexivity|]. cbn [lstrip]. intros ->. reflexivity. Qed.

Lemma lstrip_idempotent (s : str) : lstrip (lstrip s) = lstrip s.
Proof.
  apply lstrip_fixed. destruct (lstrip s) as [|c r] eqn:E; [exact I|].
  exact (lstrip_head s E).
Qed.

Lemma rstrip_split (s : str) :
  exists ws, s = rstrip s ++ ws /\ forallb isspace ws = true.
Proof.
  destruct (lstrip_split (rev s)) as (ws & E & F).
  exists (rev ws). split.
  - unfold rstrip. rewrite <- rev_app_distr, <- E, rev_involutive. reflexivity.
  - rewrite forallb_forall in *. intros c Hc. apply F, in_rev. exact Hc.
Qed.

Lemma rstrip_idempotent (s : str) : rstrip (rstrip s) = rstrip s.
Proof. unfold rstrip. rewrite rev_involutive, lstrip_idempotent. reflexivity. Qed.

Lemma lstrip_rstrip (s : str) : lstrip s = s -> lstrip (rstrip s) = rstrip s.
Proof.
  intros L. apply lstrip_fixed.
  destruct (rstrip_split s) as (ws & E & _).
  destruct (rstrip s) as [|c r]; [exact I|].
  rewrite E in L. cbn [app] in L. apply (lstrip_head _ L).
Qed.

Lemma strip_fixed_points (s : str) :
  lstrip (strip s) = strip s /\ rstrip (strip s) = strip s.
Proof.
  unfold strip. split.
  - apply lstrip_rstrip, lstrip_idempotent.
  - apply rstrip_idempotent.
Qed.

Lemma strip_idempotent (s : str) : strip (strip s) = strip s.
Proof.
  destruct (strip_fixed_points s) as [L R].
  unfold strip at 1. rewrite L. exact R.
Qed.

(** A stripped text does not end with a white character. *)
Lemma strip_no_space_end (s r : str) (c : ascii) :
  strip s = r ++ [c] -> isspace c = false.
Proof.
  intros E. destruct (strip_fixed_points s) as [_ R].
  rewrite E in R. unfold rstrip in R.
  rewrite rev_app_distr in R. cbn [rev app] in R.
  apply (f_equal (@rev ascii)) in R. rewrite rev_involutive in R.
  rewrite rev_app_distr in R. cbn [rev app] in R.
  destruct (lstrip (c :: rev r)) as [|x t] eqn:L; [discriminate|].
  pose proof (lstrip_head _ L) as Hx.
  cbn [lstrip] in L. destruct (isspace c) eqn:Ec; [|reflexivity].
  exfalso.
  assert (Hlen : List.length (lstrip (rev r)) <= List.length (rev r)).
  { destruct (lstrip_split (rev r)) as (ws & E' & _).
    rewrite E' at 2. rewrite length_app. lia. }
  rewrite L, R in Hlen. cbn [List.length] in Hlen. lia.
Qed.

(** ** The invoker on any behaviour of the process *)

Lemma outcomes_nth (w : World) (prompt : str) (n k : nat) :
  k < n -> nth k (outcomes w prompt n) Hangs = nth_outcome w prompt k.
Proof.
  intros Hk. unfold outcomes.
  rewrite nth_indep with (d' := nth_outcome w prompt 0)
    by (rewrite length_map, length_seq; exact Hk).
  rewrite map_nth, seq_nth by exact Hk. reflexivity.
Qed.

Lemma outcomes_firstn (w : World) (prompt : str) (n m : nat) :
  n <= m -> firstn n (outcomes w prompt m) = outcomes w prompt n.
Proof.
  intros H. unfold outcomes. rewrite firstn_map. f_equal.
  generalize 0 as a. revert m H.
  induction n as [|n IH]; intros m H a; [reflexivity|].
  destruct m as [|m]; [lia|]. cbn [seq firstn]. f_equal. apply IH. lia.
Qed.

(** The outcomes of a call: all failures, or failures and then a first
    success. *)
Lemma first_success_cases (outs : list Outcome) :
  (Forall failed outs /\ first_success outs = None
   /\ attempts_made outs = List.length outs)
  \/ (exists fails o out rest,
        outs = fails ++ o :: rest /\ Forall failed fails
        /\ succeeded o = Some out /\ first_success outs = Some out
        /\ attempts_made outs = S (List.length fails)).
Proof.
  induction outs as [|o outs IH].
  - left. repeat split. constructor.
  - cbn [first_success attempts_made]. destruct (succeeded o) as [out|] eqn:E.
    + right. exists [], o, out, outs. repeat split; [constructor | exact E].
    + destruct IH as [(F & N & A)|(fails & o' & out & rest & E1 & F & S1 & S2 & A)].
      * left. repeat split; [constructor; assumption | exact N |].
        cbn [List.length]. rewrite A. reflexivity.
      * right. exists (o :: fails), o', out, rest. subst outs.
        repeat split; [constructor; assumption | exact S1 | exact S2 |].
        cbn [List.length]. rewrite A. reflexivity.
Qed.

(** X1. With [max_retries] zero or negative the invoker makes no attempt:
    it returns the failure sentinel at once and leaves the world as it
    was, nothing spawned, no wait, nothing printed. *)
Theorem X1_no_retries_no_attempt (prompt : str) (max_retries : Z) (w : World) :
  (max_retries <= 0)%Z ->
  call_llama_with_ollama prompt max_retries w = (Val FAILED, w).
Proof.
  intros H. rewrite call_llama_with_ollama_spec. cbv zeta.
  replace (Z.to_nat max_retries) with 0 by lia.
  cbn. rewrite app_nil_r. destruct w; reflexivity.
Qed.

Lemma X1_witness :
  call_llama_with_ollama (lit "p") (-2) hangs_twice = (Val FAILED, hangs_twice).
Proof. apply X1_no_retries_no_attempt. lia. Defined.

(** X2. Whatever the process does, a call makes [n] attempts with
    [n <= max_retries], all on the same command line, waits 3 between
    consecutive attempts and at no other time, and stops at the first
    attempt that succeeds: either attempt [n] succeeded, every earlier
    one having failed, and the call returns its output stripped, or all
    [max_retries] attempts failed and the call returns the sentinel. *)
Theorem X2_stops_at_first_success (prompt : str) (max_retries : Z) (w : World) :
  exists r w' n,
    call_llama_with_ollama prompt max_retries w = (Val r, w')
    /\ n <= Z.to_nat max_retries
    /\ double w' = double w
    /\ spawned w' = repeat (argv_of prompt) n ++ spawned w
    /\ schedule_of (new_events w w') = backoff_schedule (argv_of prompt) n
    /\ (forall k, S k < n -> failed (nth_outcome w prompt k))
    /\ ((exists out,
           0 < n /\ succeeded (nth_outcome w prompt (n - 1)) = Some out
           /\ r = strip out)
        \/ (n = Z.to_nat max_retries
            /\ (forall k, k < n -> failed (nth_outcome w prompt k))
            /\ r = FAILED)).
Proof.
  rewrite call_llama_with_ollama_spec. cbv zeta.
  set (limit := Z.to_nat max_retries).
  pose proof (outcomes_length w prompt limit) as L.
  assert (Hnth : forall k, k < limit ->
            nth k (outcomes w prompt limit) Hangs = nth_outcome w prompt k)
    by (intros; apply outcomes_nth; assumption).
  destruct (first_success_cases (outcomes w prompt limit))
    as [(F & N & A)|(fails & o & out & rest & E & F & S1 & S2 & A)].
  - do 2 eexists. exists (attempts_made (outcomes w prompt limit)).
    split; [reflexivity|]. rewrite A, L.
    assert (Hall : forall k, k < limit -> failed (nth_outcome w prompt k)).
    { intros k Hk. rewrite <- Hnth by exact Hk.
      rewrite Forall_forall in F. apply F, nth_In. lia. }
    split; [lia|]. split; [reflexivity|]. split; [reflexivity|]. split.
    + rewrite new_events_mk. destruct limit as [|m] eqn:El.
      * destruct (outcomes w prompt 0); [reflexivity | discriminate].
      * rewrite (schedule_all_failed prompt F) by (rewrite L; cbn; lia).
        rewrite L. reflexivity.
    + split; [intros k Hk; apply Hall; lia|].
      right. unfold result_of. rewrite N. repeat split. exact Hall.
  - do 2 eexists. exists (attempts_made (outcomes w prompt limit)).
    split; [reflexivity|]. rewrite A.
    assert (Hlen : S (List.length fails) <= limit).
    { rewrite <- L, E, length_app. cbn [List.length]. lia. }
    assert (Hfail : forall k, k < List.length fails ->
              failed (nth_outcome w prompt k)).
    { intros k Hk. rewrite <- Hnth by lia. rewrite E, app_nth1 by exact Hk.
      rewrite Forall_forall in F. apply F, nth_In. exact Hk. }
    assert (Ho : nth_outcome w prompt (List.length fails) = o).
    { rewrite <- Hnth by lia. rewrite E, app_nth2, Nat.sub_diag by lia.
      reflexivity. }
    split; [exact Hlen|]. split; [reflexivity|]. split; [reflexivity|]. split.
    + rewrite new_events_mk, E.
      apply (schedule_until_success prompt _ rest F S1). lia.
    + split; [intros k Hk; apply Hfail; lia|].
      left. exists out. cbn [Nat.sub]. rewrite Nat.sub_0_r, Ho.
      unfold result_of. rewrite S2. repeat split; [lia | exact S1].
Qed.

Lemma kills_of_attempt (prompt : str) (attempt : Z) (o : Outcome) :
  kills_of (events_of_attempt prompt attempt o)
  = if timed_out o then [EKill] else [].
Proof.
  unfold events_of_attempt.
  destruct o as [msg|rc out err|]; [| destruct (rc =? 0)%Z |]; reflexivity.
Qed.

Lemma kills_of_run (prompt : str) (max_retries : Z) (outs : list Outcome) :
  forall a,
  List.length (kills_of (events_of_run prompt max_retries a outs))
  = List.length (filter timed_out (firstn (attempts_made outs) outs)).
Proof.
  induction outs as [|o outs IH]; intros a; [reflexivity|].
  cbn [events_of_run attempts_made]. unfold kills_of in *.
  rewrite filter_app. fold (kills_of (events_of_attempt prompt (Z.of_nat a) o)).
  rewrite kills_of_attempt, length_app.
  destruct (succeeded o) as [out|] eqn:E.
  - destruct o as [msg|rc out' err|]; cbn in E |- *; try discriminate.
    reflexivity.
  - rewrite filter_app, length_app, IH. cbn [firstn filter].
    destruct (Z.of_nat a <? max_retries - 1)%Z, (timed_out o); cbn; lia.
Qed.

(** X3. The process is killed exactly when waiting for it timed out: the
    kills of a call are as many as the attempts it made that hung, so a
    call none of whose attempts hangs kills nothing. *)
Theorem X3_kill_on_timeout_only (prompt : str) (max_retries : Z) (w : World) :
  exists w' n,
    snd (call_llama_with_ollama prompt max_retries w) = w'
    /\ spawned w' = repeat (argv_of prompt) n ++ spawned w
    /\ List.length (kills_of (new_events w w'))
       = List.length (filter timed_out (outcomes w prompt n))
    /\ ((forall k, k < n -> timed_out (nth_outcome w prompt k) = false) ->
        kills_of (new_events w w') = []).
Proof.
  rewrite call_llama_with_ollama_spec. cbv zeta. cbn [snd].
  set (outs := outcomes w prompt (Z.to_nat max_retries)).
  assert (Hn : attempts_made outs <= Z.to_nat max_retries).
  { pose proof (outcomes_length w prompt (Z.to_nat max_retries)) as L.
    fold outs in L.
    destruct (first_success_cases outs)
      as [(_ & _ & A)|(fails & o & out & rest & E & _ & _ & _ & A)]; rewrite A.
    - lia.
    - rewrite <- L, E, length_app. cbn [List.length]. lia. }
  assert (K : List.length (kills_of (events_of_run prompt max_retries 0 outs))
              = List.length (filter timed_out
                               (outcomes w prompt (attempts_made outs)))).
  { rewrite kills_of_run. unfold outs at 2.
    rewrite outcomes_firstn by exact Hn. reflexivity. }
  eexists. exists (attempts_made outs).
  split; [reflexivity|]. split; [reflexivity|].
  rewrite new_events_mk. split; [exact K|].
  intros Hno.
  assert (Z0 : filter timed_out (outcomes w prompt (attempts_made outs)) = []).
  { unfold outcomes. induction (seq 0 (attempts_made outs)) as [|k ks IHk] eqn:Es
      in Hno |- *.
    - reflexivity.
    - assert (Hin : forall j, In j (k :: ks) -> j < attempts_made outs).
      { intros j Hj. rewrite <- Es in Hj. apply in_seq in Hj. lia. }
      clear Es. revert Hin. induction (k :: ks) as [|j js IHj]; intros Hin.
      + reflexivity.
      + cbn [map filter]. rewrite Hno by (apply Hin; left; reflexivity).
        apply IHj. intros i Hi. apply Hin. right. exact Hi. }
  rewrite Z0 in K. destruct (kills_of _); [reflexivity | discriminate].
Qed.

(** X4. What the invoker returns is always stripped already: whatever
    the process prints, the returned text has no white character at
    either end. *)
Theorem X4_returned_text_is_stripped (prompt : str) (max_retries : Z) (w : World) :
  exists r,
    fst (call_llama_with_ollama prompt max_retries w) = Val r
    /\ strip r = r
    /\ (forall c rest, r = c :: rest -> isspace c = false)
    /\ (forall front c, r = front ++ [c] -> isspace c = false).
Proof.
  rewrite call_llama_with_ollama_spec. cbv zeta. cbn [fst].
  eexists. split; [reflexivity|].
  assert (E : exists s, result_of (outcomes w prompt (Z.to_nat max_retries))
                        = strip s).
  { unfold result_of. destruct (first_success _) as [out|].
    - exists out. reflexivity.
    - exists FAILED. reflexivity. }
  destruct E as [s ->]. split; [apply strip_idempotent|]. split.
  - intros c rest E. destruct (strip_fixed_points s) as [L _].
    rewrite E in L. apply (lstrip_head _ L).
  - intros front c E. apply (@strip_no_space_end s front c E).
Qed.

(** ** The prompt table and the classifier *)

Lemma dict_get_missing (V : Type) (d : dict V) (k : str) :
  ~ In k (keys d) -> dict_get d k = None.
Proof.
  induction d as [|[k' v] d IH]; intros H; [reflexivity|].
  cbn [dict_get]. cbn [keys map fst In] in H.
  destruct (str_eqb k' k) eqn:E.
  - apply str_eqb_eq in E. tauto.
  - apply IH. unfold keys. tauto.
Qed.

(** X5. A content type that is not one of the five category names, as
    they are spelled, gets the prompts of [educational]: the lookup never
    raises, and it is sensitive to case. *)
Theorem X5_unknown_category_gets_educational_prompts (content_type : str) :
  ~ In content_type categories ->
  generate_prompts content_type = Val educational_prompts
  /\ generate_prompts (lit "educational") = Val educational_prompts.
Proof.
  intros H. split; [|reflexivity].
  unfold generate_prompts, getitem.
  change (dict_get base_prompts (lit "educational"))
    with (Some educational_prompts).
  unfold res_bind, get_default.
  rewrite dict_get_missing by exact H. reflexivity.
Qed.

Lemma X5_witness :
  generate_prompts (lit "Technical") = Val educational_prompts
  /\ generate_prompts (lit "educational") = Val educational_prompts.
Proof.
  apply X5_unknown_category_gets_educational_prompts.
  cbn [categories In]. intros H.
  repeat (destruct H as [H|H]; [discriminate H|]). exact H.
Defined.

(** X6. A category whose score is strictly above the score of every
    other category is the one detected, wherever it stands in the
    declaration order and whatever the case of the letters of the text. *)
Theorem X6_strict_maximum_is_detected (T : str) (i : nat) :
  i < 5 ->
  (forall j, j < 5 -> j <> i -> score_nth T j < score_nth T i) ->
  detect_content_type T = Val (nth i categories []).
Proof.
  intros Hi Hbest.
  destruct (detect_content_type_first_max T) as (i0 & Hi0 & E & Hmax & _).
  destruct (Nat.eq_dec i0 i) as [->|Hne]; [exact E|].
  specialize (Hbest i0 Hi0 Hne). specialize (Hmax i Hi). lia.
Qed.

Lemma X6_witness :
  detect_content_type
    (lit "The EXPERIMENT gave data; the Methodology and the data are sound.")
  = Val (lit "scientific").
Proof.
  apply (@X6_strict_maximum_is_detected
           (lit "The EXPERIMENT gave data; the Methodology and the data are sound.") 1).
  - lia.
  - intros j Hj Hne.
    do 5 (destruct j as [|j]; [first [congruence | vm_compute; lia]|]). lia.
Defined.

(** ** The prompts a run gives to the process *)

Lemma spawned_in_order_length (ps : list str) (counts : list nat) :
  List.length counts = List.length ps ->
  Forall (fun k => 1 <= k <= 3) counts ->
  List.length ps <= List.length (spawned_in_order ps counts) <= 3 * List.length ps.
Proof.
  revert counts; induction ps as [|p ps IH]; intros [|k counts] L B;
    try discriminate; [cbn; lia|].
  inversion B as [|? ? Hk B']; subst.
  unfold spawned_in_order in *. cbn [combine map List.concat fst snd].
  rewrite length_app, repeat_length.
  specialize (IH counts). cbn [List.length] in *.
  assert (L' : List.length counts = List.length ps) by lia.
  specialize (IH L' B'). lia.
Qed.

(** X7. The command lines a run spawns are those of its prompts and no
    others, in the order of the loops: tier by tier in the order
    beginner, intermediate, advanced and, within a tier, chunk by chunk;
    every prompt is attempted at least once and at most three times, so a
    text of [n] chunks costs between [3n] and [9n] spawns. *)
Theorem X7_spawns_the_prompts_in_order (T : str) (w : World) :
  exists content_type prompts counts,
    detect_content_type T = Val content_type
    /\ generate_prompts content_type = Val prompts
    /\ map fst prompts = tiers
    /\ let chunks := chunks_of max_chunk_size T in
       let ps := all_prompts prompts chunks in
       let w' := snd (generate_explanations T w) in
       List.length counts = List.length ps
       /\ Forall (fun k => 1 <= k <= 3) counts
       /\ spawned w' = rev (spawned_in_order ps counts) ++ spawned w
       /\ List.length ps = 3 * List.length chunks
       /\ 3 * List.length chunks
          <= List.length (spawned w') - List.length (spawned w)
          <= 9 * List.length chunks.
Proof.
  destruct (generate_explanations_spec T w)
    as (content_type & prompts & E1 & _ & E2 & E3 & E4).
  cbv zeta in E4.
  destruct (tier_results_history (chunks_of max_chunk_size T) prompts
              (after_detection content_type w)) as (counts & L & B & E).
  exists content_type, prompts, counts.
  split; [exact E1|]. split; [exact E2|]. split; [exact E3|].
  cbv zeta. rewrite E4. cbn [snd].
  assert (Lp : List.length (all_prompts prompts (chunks_of max_chunk_size T))
               = 3 * List.length (chunks_of max_chunk_size T)).
  { destruct (generate_prompts_shape content_type) as (pb & pi & pa & Ep).
    assert (Es : prompts = [(lit "beginner", pb); (lit "intermediate", pi);
                            (lit "advanced", pa)]) by congruence.
    rewrite Es. unfold all_prompts. cbn [flat_map snd].
    rewrite !length_app, !length_map. cbn. lia. }
  split; [exact L|]. split; [exact B|]. split; [exact E|]. split; [exact Lp|].
  rewrite E. cbn [spawned after_detection]. rewrite length_app, length_rev.
  pose proof (spawned_in_order_length _ L B) as S. lia.
Qed.

Lemma all_prompts_length (prompts : dict str) (chunks : list str) :
  List.length (all_prompts prompts chunks)
  = List.length prompts * List.length chunks.
Proof.
  unfold all_prompts. induction prompts as [|item rest IH]; [reflexivity|].
  cbn [flat_map List.length]. rewrite length_app, length_map, IH. lia.
Qed.

(** X8. A run spawns no process exactly when the text is empty: every
    other text has a chunk, and every chunk is sent at least once for
    each tier.  On the empty text the category is [technical], each of the
    three explanations is "No explanation generated.", and the only effect
    is the line that reports the category. *)
Theorem X8_no_spawn_iff_empty_text (T : str) (w : World) :
  (spawned (snd (generate_explanations T w)) = spawned w <-> T = [])
  /\ (T = [] ->
      generate_explanations T w
      = (Val ([(lit "beginner", NO_EXPLANATION);
               (lit "intermediate", NO_EXPLANATION);
               (lit "advanced", NO_EXPLANATION)], lit "technical"),
         mk_world (double w) (spawned w)
           (trace w ++ [EPrint (lit "Detected content type: technical")]))).
Proof.
  split; [|intros ->; reflexivity].
  split; [|intros ->; reflexivity].
  intros Hsame.
  destruct (generate_explanations_spec T w)
    as (content_type & prompts & _ & _ & _ & E3 & E4).
  cbv zeta in E4. rewrite E4 in Hsame. cbn [snd] in Hsame.
  destruct (tier_results_history (chunks_of max_chunk_size T) prompts
              (after_detection content_type w)) as (counts & L & B & E).
  rewrite E in Hsame. cbn [spawned after_detection] in Hsame.
  apply (f_equal (@List.length (list str))) in Hsame.
  rewrite length_app, length_rev in Hsame.
  pose proof (spawned_in_order_length _ L B) as [Low _].
  rewrite all_prompts_length in Low.
  assert (L3 : List.length prompts = 3)
    by (rewrite <- (length_map fst), E3; reflexivity).
  assert (Hn : List.length (chunks_of max_chunk_size T) = 0) by lia.
  pose proof (ceil_bounds T max_chunk_size_pos) as [Up _].
  rewrite <- (chunks_of_length T max_chunk_size_pos), Hn in Up.
  destruct T; [reflexivity | cbn in Up; lia].
Qed.

(** X9. A text of 1 to 3000 characters is one chunk, the text itself, so
    each tier sends the process a single prompt: its prefix, a blank line
    and the whole text. *)
Theorem X9_short_text_is_one_chunk (T : str) :
  1 <= len T <= max_chunk_size ->
  chunks_of max_chunk_size T = [T]
  /\ forall prompts,
       all_prompts prompts (chunks_of max_chunk_size T)
       = map (fun item => snd item ++ [LF; LF] ++ T) prompts.
Proof.
  intros H.
  assert (E : chunks_of max_chunk_size T = [T]).
  { pose proof (chunks_of_concat T max_chunk_size_pos) as C.
    pose proof (chunks_of_length T max_chunk_size_pos) as L.
    assert (L1 : (len T + max_chunk_size - 1) / max_chunk_size = 1).
    { replace (len T + max_chunk_size - 1)
        with ((len T - 1) + 1 * max_chunk_size) by lia.
      rewrite Nat.div_add by (pose proof max_chunk_size_pos; lia).
      rewrite Nat.div_small by lia. reflexivity. }
    rewrite L1 in L.
    destruct (chunks_of max_chunk_size T) as [|c [|c' cs]]; try discriminate.
    cbn in C. rewrite app_nil_r in C. rewrite C. reflexivity. }
  split; [exact E|]. intros prompts. rewrite E. unfold all_prompts.
  induction prompts as [|item rest IH]; [reflexivity|].
  cbn [flat_map map app] in *. rewrite IH. reflexivity.
Qed.

Lemma X9_witness :
  chunks_of max_chunk_size (lit "notes") = [lit "notes"]
  /\ forall prompts,
       all_prompts prompts (chunks_of max_chunk_size (lit "notes"))
       = map (fun item => snd item ++ [LF; LF] ++ lit "notes") prompts.
Proof.
  apply X9_short_text_is_one_chunk.
  split; [cbn; lia | apply Nat.leb_le; vm_compute; reflexivity].
Defined.

(** ** Rendering: errors, blank content, and the blocks of the chunks *)

(** X10. A level that is not beginner, intermediate or advanced makes
    [create_level_pdf] raise before anything is built, and the world is
    left as it was: the title paragraph is made first, so a title the
    library refuses raises what the library raises; with a title it
    accepts, the lookup of the subtitle raises [KeyError], whose text is
    the [repr] of the level. *)
Theorem X10_unknown_level_raises_before_building
    (str_title : str -> str)
    (paragraph_error : str -> Style -> option exn)
    (build_error : str -> list Flowable -> option exn)
    (content title level content_type output_filename : str) (w : World) :
  ~ In level tiers ->
  create_level_pdf str_title paragraph_error build_error
    content title level content_type output_filename w
  = (Raised (match paragraph_error title Title with
             | Some e => e
             | None => mk_exn KeyError (repr level)
             end), w).
Proof.
  intros H. unfold create_level_pdf.
  unfold bind at 1. unfold new_Paragraph at 1.
  destruct (paragraph_error title Title) as [e|]; [reflexivity|].
  unfold ret at 1. unfold bind at 1. unfold lift, getitem.
  rewrite dict_get_missing by exact H. reflexivity.
Qed.

Lemma X10_witness :
  create_level_pdf lower refuses_angle writes_all
    (lit "text") (lit "Title") (lit "o'k")
    (lit "technical") (lit "o'k_guide.pdf") parrot
  = (Raised (mk_exn KeyError (DQUOTE :: lit "o'k" ++ [DQUOTE])), parrot).
Proof.
  apply (@X10_unknown_level_raises_before_building lower refuses_angle
           writes_all (lit "text") (lit "Title") (lit "o'k")).
  cbn [tiers In]. intros H.
  repeat (destruct H as [H|H]; [discriminate H|]). exact H.
Defined.

Lemma lstrip_all_space (s : str) :
  Forall (fun c => isspace c = true) s -> lstrip s = [].
Proof.
  induction 1 as [|c s Hc _ IH]; [reflexivity|].
  cbn [lstrip]. rewrite Hc. exact IH.
Qed.

Lemma strip_all_space (s : str) :
  Forall (fun c => isspace c = true) s -> strip s = [].
Proof. intros H. unfold strip. rewrite lstrip_all_space by exact H. reflexivity. Qed.

Lemma split_from_fields (P : ascii -> Prop) (sep s : str) :
  Forall P s ->
  forall skip cur, Forall P cur ->
  Forall (Forall P) (split_from sep s skip cur).
Proof.
  induction 1 as [|c s Hc Hs IH]; intros skip cur Hcur; cbn [split_from].
  - constructor; [|constructor]. apply Forall_rev. exact Hcur.
  - destruct skip as [|k]; [|apply IH; exact Hcur].
    destruct (startswith sep (c :: s)).
    + constructor; [apply Forall_rev; exact Hcur | apply IH; constructor].
    + apply IH. constructor; assumption.
Qed.

Lemma for_sections_blank (sections : list str) :
  Forall (Forall (fun c => isspace c = true)) sections ->
  forall story, for_sections sections story = story.
Proof.
  induction 1 as [|section rest Hs _ IH]; intros story; [reflexivity|].
  cbn [for_sections]. rewrite strip_all_space by exact Hs. apply IH.
Qed.

(** X11. A content made of white characters only, the empty content
    included, adds no paragraph: the story of the document is its title,
    its subtitle and the spacer, and nothing else.  The document is built
    when the library accepts the title and the subtitle and the build
    succeeds; otherwise what the library raises is raised and nothing is
    built. *)
Theorem X11_blank_content_renders_nothing
    (str_title : str -> str)
    (paragraph_error : str -> Style -> option exn)
    (build_error : str -> list Flowable -> option exn)
    (content title level content_type output_filename : str) (w : World) :
  (forall c, In c content -> isspace c = true) ->
  (forall story, for_sections (split content [LF; LF]) story = story)
  /\ (forall story v,
        for_sections_M paragraph_error (split content [LF; LF]) story v
        = (Val story, v))
  /\ (In level tiers ->
      exists level_title,
        getitem level_titles level = Val level_title /\
        let subtitle :=
          level_title ++ lit " - " ++ str_title content_type
          ++ lit " Content" in
        let story := [Paragraph title Title; Paragraph subtitle Heading1;
                      Spacer 1 (0.3 * inch)%float] in
        create_level_pdf str_title paragraph_error build_error
          content title level content_type output_filename w
        = match first_refused paragraph_error story with
          | Some e => (Raised e, w)
          | None =>
              match build_error output_filename story with
              | Some e => (Raised e, w)
              | None =>
                  (Val tt,
                   mk_world (double w) (spawned w)
                     (trace w ++
                      [EBuild output_filename story;
                       EPrint (lit "PDF created: " ++ output_filename)]))
              end
          end).
Proof.
  intros H.
  assert (B : forall story, for_sections (split content [LF; LF]) story = story).
  { apply for_sections_blank. unfold split.
    apply split_from_fields; [apply Forall_forall; exact H | constructor]. }
  assert (N : flat_map render_block (split content [LF; LF]) = []).
  { pose proof (B []) as B0. rewrite for_sections_spec in B0. exact B0. }
  split; [exact B|]. split.
  { intros story v. rewrite for_sections_M_spec, N. cbn [first_refused].
    rewrite app_nil_r. reflexivity. }
  intros Hl.
  destruct (create_level_pdf_spec str_title paragraph_error build_error
              content title content_type output_filename w Hl)
    as (level_title & D & E).
  exists level_title. split; [unfold getitem; rewrite D; reflexivity|].
  cbv zeta in E |- *. rewrite E, N, app_nil_r. unfold document_error.
  destruct (first_refused paragraph_error _); [reflexivity|].
  destruct (build_error output_filename _); reflexivity.
Qed.

Lemma X11_witness :
  let content := lit "  " ++ [LF; LF; LF] ++ lit " " in
  (forall story, for_sections (split content [LF; LF]) story = story)
  /\ (forall story v,
        for_sections_M refuses_angle (split content [LF; LF]) story v
        = (Val story, v))
  /\ (In (lit "beginner") tiers ->
      exists level_title,
        getitem level_titles (lit "beginner") = Val level_title /\
        let subtitle :=
          level_title ++ lit " - " ++ lower (lit "technical")
          ++ lit " Content" in
        let story := [Paragraph (lit "a<b") Title; Paragraph subtitle Heading1;
                      Spacer 1 (0.3 * inch)%float] in
        create_level_pdf lower refuses_angle writes_all
          content (lit "a<b") (lit "beginner") (lit "technical")
          (lit "beginner_guide.pdf") parrot
        = match first_refused refuses_angle story with
          | Some e => (Raised e, parrot)
          | None =>
              match writes_all (lit "beginner_guide.pdf") story with
              | Some e => (Raised e, parrot)
              | None =>
                  (Val tt,
                   mk_world (double parrot) (spawned parrot)
                     (trace parrot ++
                      [EBuild (lit "beginner_guide.pdf") story;
                       EPrint (lit "PDF created: " ++ lit "beginner_guide.pdf")]))
              end
          end).
Proof.
  apply X11_blank_content_renders_nothing.
  intros c Hc. cbn in Hc.
  repeat (destruct Hc as [<-|Hc]; [reflexivity|]). destruct Hc.
Defined.

Lemma no_final_LF_tail (c : ascii) (s : str) :
  no_final_LF (c :: s) -> no_final_LF s.
Proof. intros H front E. apply (H (c :: front)). rewrite E. reflexivity. Qed.

Lemma split_from_blank_line (b : str) (a : str) :
  forall skip cur,
  skip <= len a -> no_final_LF a ->
  split_from BLANK_LINE (a ++ BLANK_LINE ++ b) skip cur
  = split_from BLANK_LINE a skip cur ++ split_from BLANK_LINE b 0 [].
Proof.
  unfold len. induction a as [|c a IH]; intros skip cur Hskip Ha.
  - destruct skip as [|k]; [reflexivity | cbn in Hskip; lia].
  - pose proof (no_final_LF_tail Ha) as Ha'.
    cbn [app split_from]. destruct skip as [|k].
    + assert (Es : startswith BLANK_LINE (c :: a ++ BLANK_LINE ++ b)
                   = startswith BLANK_LINE (c :: a)).
      { unfold BLANK_LINE. cbn [startswith].
        destruct a as [|y a]; [|reflexivity].
        cbn [app startswith].
        destruct (Ascii.eqb LF c) eqn:Ec; [|reflexivity].
        apply Ascii.eqb_eq in Ec. subst c.
        exfalso. apply (Ha []). reflexivity. }
      rewrite Es. destruct (startswith BLANK_LINE (c :: a)) eqn:Ea.
      * cbn [app]. f_equal. apply IH; [|exact Ha'].
        unfold BLANK_LINE in Ea. cbn [startswith] in Ea.
        destruct a as [|y a]; [|cbn; lia].
        rewrite andb_false_r in Ea. discriminate.
      * apply IH; [lia | exact Ha'].
    + apply IH; [cbn in Hskip; lia | exact Ha'].
Qed.

Lemma split_join_blank_line (rs : list str) :
  rs <> [] -> Forall no_final_LF rs ->
  split (join BLANK_LINE rs) BLANK_LINE
  = flat_map (fun r => split r BLANK_LINE) rs.
Proof.
  induction rs as [|r rs IH]; [congruence|]. intros _ H.
  inversion H as [|? ? Hr Hrs]; subst.
  destruct rs as [|r2 rs].
  - cbn [join flat_map]. rewrite app_nil_r. reflexivity.
  - change (join BLANK_LINE (r :: r2 :: rs))
      with (r ++ BLANK_LINE ++ join BLANK_LINE (r2 :: rs)).
    unfold split at 1. rewrite split_from_blank_line by (try lia; exact Hr).
    change (flat_map (fun r0 => split r0 BLANK_LINE) (r :: r2 :: rs))
      with (split r BLANK_LINE
            ++ flat_map (fun r0 => split r0 BLANK_LINE) (r2 :: rs)).
    f_equal. apply IH; [discriminate | exact Hrs].
Qed.

Lemma stripped_no_final_LF (s : str) : no_final_LF (strip s).
Proof.
  intros front E. pose proof (@strip_no_space_end s front LF E) as H.
  discriminate H.
Qed.

Lemma call_result_stripped (prompt : str) (w : World) :
  exists s, call_result prompt w = strip s.
Proof.
  unfold call_result, result_of. destruct (first_success _) as [out|].
  - exists out. reflexivity.
  - exists FAILED. reflexivity.
Qed.

Lemma chunk_results_stripped (prompt_template : str) (chunks : list str) :
  forall w, Forall (fun r => strip r = r)
                   (fst (chunk_results prompt_template chunks w)).
Proof.
  induction chunks as [|chunk rest IH]; intros w; [constructor|].
  cbn [chunk_results].
  specialize (IH (after_call (prompt_of prompt_template chunk) w)).
  destruct (chunk_results prompt_template rest _) as [results w'].
  cbn [fst] in *. constructor; [|exact IH].
  destruct (call_result_stripped (prompt_of prompt_template chunk) w) as [s ->].
  apply strip_idempotent.
Qed.

Lemma tier_results_stripped (chunks : list str) (items : dict str) :
  forall w, Forall (fun tier => Forall (fun r => strip r = r) (snd tier))
                   (fst (tier_results items chunks w)).
Proof.
  induction items as [|[level prompt_template] rest IH]; intros w; [constructor|].
  cbn [tier_results].
  pose proof (chunk_results_stripped prompt_template chunks w) as H.
  destruct (chunk_results prompt_template chunks w) as [results w1].
  specialize (IH w1). destruct (tier_results rest chunks w1) as [others w2].
  cbn [fst snd] in *. constructor; assumption.
Qed.

Lemma flat_map_flat_map (A B C : Type) (f : A -> list B) (g : B -> list C)
    (l : list A) :
  flat_map g (flat_map f l) = flat_map (fun x => flat_map g (f x)) l.
Proof.
  induction l as [|x l IH]; [reflexivity|].
  cbn [flat_map]. rewrite flat_map_app, IH. reflexivity.
Qed.

Lemma render_aggregate (results : list str) :
  Forall (fun r => strip r = r) results ->
  flat_map render_block (split (aggregate results) BLANK_LINE)
  = match kept results with
    | [] => [Paragraph NO_EXPLANATION Topic]
    | _ :: _ =>
        flat_map (fun r => flat_map render_block (split r BLANK_LINE))
                 (kept results)
    end.
Proof.
  intros H. unfold aggregate.
  assert (K : Forall no_final_LF (kept results)).
  { apply Forall_forall. intros r Hr. unfold kept in Hr.
    apply filter_In in Hr. destruct Hr as [Hr _].
    rewrite Forall_forall in H. rewrite <- (H r Hr).
    apply stripped_no_final_LF. }
  destruct (kept results) as [|r rs] eqn:E; [reflexivity|].
  change [LF; LF] with BLANK_LINE.
  rewrite split_join_blank_line by (try discriminate; exact K).
  apply flat_map_flat_map.
Qed.

(** X12. Joining and splitting compose: the blocks rendered from the
    explanation of a tier are the blocks rendered from each kept chunk
    result, one result after the other in chunk order; the joint between
    two results never merges or cuts a block, because what the invoker
    returns is stripped.  A tier with no kept result renders as the single
    heading "No explanation generated.". *)
Theorem X12_rendering_follows_the_chunks (T : str) (w : World) :
  exists content_type prompts,
    detect_content_type T = Val content_type
    /\ generate_prompts content_type = Val prompts
    /\ let per_tier :=
         fst (tier_results prompts (chunks_of max_chunk_size T)
                (after_detection content_type w)) in
       fst (generate_explanations T w)
       = Val (map (fun tier => (fst tier, aggregate (snd tier))) per_tier,
              content_type)
       /\ Forall
            (fun tier =>
               Forall (fun r => strip r = r) (snd tier)
               /\ for_sections (split (aggregate (snd tier)) [LF; LF]) []
                  = match kept (snd tier) with
                    | [] => [Paragraph (lit "No explanation generated.") Topic]
                    | _ :: _ =>
                        flat_map (fun r => for_sections (split r [LF; LF]) [])
                                 (kept (snd tier))
                    end)
            per_tier.
Proof.
  destruct (generate_explanations_spec T w)
    as (content_type & prompts & E1 & _ & E2 & _ & E4).
  cbv zeta in E4. exists content_type, prompts.
  split; [exact E1|]. split; [exact E2|]. cbv zeta.
  split; [rewrite E4; reflexivity|].
  pose proof (tier_results_stripped (chunks_of max_chunk_size T) prompts
                (after_detection content_type w)) as S.
  eapply Forall_impl; [|exact S]. intros [level results] Hs. cbn [snd] in *.
  split; [exact Hs|].
  rewrite for_sections_spec. cbn [app]. change [LF; LF] with BLANK_LINE.
  rewrite render_aggregate by exact Hs.
  destruct (kept results); [reflexivity|].
  apply flat_map_ext. intros r. rewrite for_sections_spec. reflexivity.
Qed.

(** ** The documents of a run *)

Lemma for_documents_spec (str_title : str -> str)
    (paragraph_error : str -> Style -> option exn)
    (build_error : str -> list Flowable -> option exn)
    (title content_type : str) (items : list (str * str)) :
  Forall (fun item => In (fst item) tiers) items ->
  forall w, exists docs,
    map fst docs = map (fun item => fst item ++ lit "_guide.pdf") items
    /\ Forall2 (fun item doc =>
                  exists level_title,
                    dict_get level_titles (fst item) = Some level_title
                    /\ snd doc = document_story level_title
                                   (str_title content_type) title (snd item))
               items docs
    /\ let run := documents_run paragraph_error build_error docs in
       for_documents str_title paragraph_error build_error items title
         content_type w
       = (fst run, mk_world (double w) (spawned w) (trace w ++ snd run)).
Proof.
  induction 1 as [|[level content] rest Hl Hrest IH]; intros w.
  - exists []. split; [reflexivity|]. split; [constructor|].
    cbn. rewrite app_nil_r. destruct w; reflexivity.
  - cbn [fst] in Hl.
    destruct (create_level_pdf_spec str_title paragraph_error build_error
                content title content_type (level ++ lit "_guide.pdf") w Hl)
      as (level_title & D & E).
    cbv zeta in E.
    set (story := document_story level_title (str_title content_type) title
                    content).
    change ([Paragraph title Title;
             Paragraph (level_title ++ lit " - " ++ str_title content_type
                        ++ lit " Content") Heading1;
             Spacer 1 (0.3 * inch)%float]
            ++ flat_map render_block (split content [LF; LF]))
      with story in E.
    destruct (document_error paragraph_error build_error
                (level ++ lit "_guide.pdf") story) as [e|] eqn:De.
    + exists ((level ++ lit "_guide.pdf", story)
              :: map (fun item =>
                        (fst item ++ lit "_guide.pdf",
                         document_story
                           (get_default level_titles (fst item) [])
                           (str_title content_type) title (snd item))) rest).
      split; [cbn [map fst]; f_equal; rewrite map_map; reflexivity|].
      split.
      * constructor; [exists level_title; split; [exact D | reflexivity]|].
        clear - Hrest. induction Hrest as [|[lv ct] rest' Hlv _ IH']; [constructor|].
        cbn [map]. constructor; [|exact IH'].
        cbn [fst snd] in *.
        assert (D' : exists t, dict_get level_titles lv = Some t).
        { destruct Hlv as [<-|[<-|[<-|[]]]]; eexists; reflexivity. }
        destruct D' as [t D']. exists t. split; [exact D'|].
        unfold get_default. rewrite D'. reflexivity.
      * cbv zeta. cbn [for_documents documents_run]. rewrite De.
        unfold bind. rewrite E. cbn [fst snd]. rewrite app_nil_r.
        destruct w; reflexivity.
    + set (w1 := mk_world (double w) (spawned w)
                   (trace w ++ [EBuild (level ++ lit "_guide.pdf") story;
                                EPrint (lit "PDF created: " ++ level
                                        ++ lit "_guide.pdf")])) in *.
      destruct (IH w1) as (docs & Hn & Hs & Hr). cbv zeta in Hr.
      exists ((level ++ lit "_guide.pdf", story) :: docs).
      split; [cbn [map fst]; rewrite Hn; reflexivity|].
      split; [constructor; [exists level_title; split; [exact D|reflexivity]
                           | exact Hs]|].
      cbv zeta. cbn [for_documents documents_run]. rewrite De.
      unfold bind. rewrite E, Hr.
      destruct (documents_run paragraph_error build_error docs) as [r evs].
      cbn [fst snd double spawned trace w1]. rewrite <- app_assoc.
      reflexivity.
Qed.

Lemma documents_run_prefix (paragraph_error : str -> Style -> option exn)
    (build_error : str -> list Flowable -> option exn)
    (docs : list (str * list Flowable)) :
  let run := documents_run paragraph_error build_error docs in
  exists k,
    k <= List.length docs
    /\ built_files (snd run) = firstn k (map fst docs)
    /\ (fst run = Val tt <-> k = List.length docs)
    /\ (forall e, fst run = Raised e ->
          exists doc, nth_error docs k = Some doc
                      /\ document_error paragraph_error build_error
                           (fst doc) (snd doc) = Some e).
Proof.
  cbv zeta. induction docs as [|[name story] rest IH].
  - exists 0. cbn. repeat split; try reflexivity; try lia. discriminate.
  - cbn [documents_run].
    destruct (document_error paragraph_error build_error name story)
      as [e|] eqn:De.
    + exists 0. cbn [fst snd built_files flat_map firstn List.length nth_error].
      split; [lia|]. split; [reflexivity|]. split.
      * split; [discriminate | lia].
      * intros e' E. inversion E; subst e'. exists (name, story).
        split; [reflexivity | exact De].
    + destruct IH as (k & Hk & Hb & Hv & He).
      destruct (documents_run paragraph_error build_error rest) as [r evs].
      cbn [fst snd] in *. exists (S k).
      cbn [List.length map fst firstn nth_error].
      split; [lia|]. split.
      * unfold built_files in *. cbn [app flat_map]. rewrite Hb. reflexivity.
      * split; [rewrite Hv; lia | exact He].
Qed.

Lemma main_after_extraction_run (str_title : str -> str)
    (paragraph_error : str -> Style -> option exn)
    (build_error : str -> list Flowable -> option exn)
    (title T : str) (w : World) :
  exists content_type eb ei ea w1,
    generate_explanations T w
    = (Val ([(lit "beginner", eb); (lit "intermediate", ei);
             (lit "advanced", ea)], content_type), w1)
    /\ let docs :=
         [ (lit "beginner_guide.pdf",
            document_story (lit "Beginner-Friendly Guide")
              (str_title content_type) title eb);
           (lit "intermediate_guide.pdf",
            document_story (lit "Comprehensive Guide")
              (str_title content_type) title ei);
           (lit "advanced_guide.pdf",
            document_story (lit "Advanced Analysis")
              (str_title content_type) title ea) ] in
       let run := documents_run paragraph_error build_error docs in
       main_after_extraction str_title paragraph_error build_error title T w
       = (fst run, mk_world (double w1) (spawned w1) (trace w1 ++ snd run)).
Proof.
  destruct (generate_explanations_spec T w)
    as (content_type & prompts & E1 & Hin & E2 & E3 & E4).
  cbv zeta in E4.
  destruct (generate_prompts_shape content_type) as (pb & pi & pa & Ep).
  assert (Es : prompts = [(lit "beginner", pb); (lit "intermediate", pi);
                          (lit "advanced", pa)]) by congruence.
  subst prompts.
  destruct (tier_results_three pb pi pa (chunks_of max_chunk_size T)
              (after_detection content_type w)) as (rb & ri & ra & Er).
  rewrite Er in E4. cbn [map fst snd] in E4.
  exists content_type, (aggregate rb), (aggregate ri), (aggregate ra).
  eexists. split; [exact E4|]. cbv zeta.
  set (w1 := snd (tier_results _ _ _)) in *.
  assert (Ht : Forall (fun item : str * str => In (fst item) tiers)
                 [(lit "beginner", aggregate rb);
                  (lit "intermediate", aggregate ri);
                  (lit "advanced", aggregate ra)]).
  { constructor; [left; reflexivity|].
    constructor; [right; left; reflexivity|].
    constructor; [right; right; left; reflexivity | constructor]. }
  destruct (for_documents_spec str_title paragraph_error build_error title
              content_type Ht w1) as (docs & Hn & Hs & Hr).
  cbv zeta in Hr.
  assert (Ed : docs
               = [ (lit "beginner_guide.pdf",
                    document_story (lit "Beginner-Friendly Guide")
                      (str_title content_type) title (aggregate rb));
                   (lit "intermediate_guide.pdf",
                    document_story (lit "Comprehensive Guide")
                      (str_title content_type) title (aggregate ri));
                   (lit "advanced_guide.pdf",
                    document_story (lit "Advanced Analysis")
                      (str_title content_type) title (aggregate ra)) ]).
  { inversion Hs as [|i1 d1 r1 ds1 (t1 & D1 & S1) Hs1]; subst.
    inversion Hs1 as [|i2 d2 r2 ds2 (t2 & D2 & S2) Hs2]; subst.
    inversion Hs2 as [|i3 d3 r3 ds3 (t3 & D3 & S3) Hs3]; subst.
    inversion Hs3; subst.
    destruct d1 as [n1 s1], d2 as [n2 s2], d3 as [n3 s3].
    cbn [map fst snd] in *.
    assert (t1 = lit "Beginner-Friendly Guide")
      by (apply (f_equal (fun o => match o with Some x => x | None => [] end)) in D1;
          symmetry; exact D1).
    assert (t2 = lit "Comprehensive Guide")
      by (apply (f_equal (fun o => match o with Some x => x | None => [] end)) in D2;
          symmetry; exact D2).
    assert (t3 = lit "Advanced Analysis")
      by (apply (f_equal (fun o => match o with Some x => x | None => [] end)) in D3;
          symmetry; exact D3).
    subst t1 t2 t3 s1 s2 s3.
    inversion Hn; subst. reflexivity. }
  rewrite Ed in Hr.
  unfold main_after_extraction, bind. rewrite E4. exact Hr.
Qed.

(** X13. Once the text is extracted, a run makes its documents after all
    generation is over and without spawning anything more, in the order
    [beginner_guide.pdf], [intermediate_guide.pdf], [advanced_guide.pdf],
    each with the same title paragraph, the subtitle of its tier with the
    category, a spacer and the blocks of the explanation of its tier.  It
    stops at the first document one of whose paragraphs the library
    refuses or whose build fails, and raises what the library raised: the
    documents built are the ones before it.  It returns normally exactly
    when all three are built. *)
Theorem X13_documents_in_tier_order (str_title : str -> str)
    (paragraph_error : str -> Style -> option exn)
    (build_error : str -> list Flowable -> option exn)
    (title T : str) (w : World) :
  exists content_type eb ei ea w1,
    generate_explanations T w
    = (Val ([(lit "beginner", eb); (lit "intermediate", ei);
             (lit "advanced", ea)], content_type), w1)
    /\ let docs :=
         [ (lit "beginner_guide.pdf",
            document_story (lit "Beginner-Friendly Guide")
              (str_title content_type) title eb);
           (lit "intermediate_guide.pdf",
            document_story (lit "Comprehensive Guide")
              (str_title content_type) title ei);
           (lit "advanced_guide.pdf",
            document_story (lit "Advanced Analysis")
              (str_title content_type) title ea) ] in
       let run := documents_run paragraph_error build_error docs in
       main_after_extraction str_title paragraph_error build_error title T w
       = (fst run, mk_world (double w1) (spawned w1) (trace w1 ++ snd run))
       /\ exists k,
            k <= 3
            /\ built_files (snd run) = firstn k (map fst docs)
            /\ (fst run = Val tt <-> k = 3)
            /\ (forall e, fst run = Raised e ->
                  exists doc, nth_error docs k = Some doc
                              /\ document_error paragraph_error build_error
                                   (fst doc) (snd doc) = Some e).
Proof.
  destruct (main_after_extraction_run str_title paragraph_error build_error
              title T w) as (content_type & eb & ei & ea & w1 & G & M).
  exists content_type, eb, ei, ea, w1. split; [exact G|].
  cbv zeta in M |- *. split; [exact M|].
  exact (documents_run_prefix paragraph_error build_error
           [ (lit "beginner_guide.pdf",
              document_story (lit "Beginner-Friendly Guide")
                (str_title content_type) title eb);
             (lit "intermediate_guide.pdf",
              document_story (lit "Comprehensive Guide")
                (str_title content_type) title ei);
             (lit "advanced_guide.pdf",
              document_story (lit "Advanced Analysis")
                (str_title content_type) title ea) ]).
Qed.

(** ** The quiz *)

Section Quiz.

Import QuizRun.

Lemma valid_choice_range (line : str) (c : Z) :
  valid_choice line = Some c -> (1 <= c <= 4)%Z.
Proof.
  unfold valid_choice. destruct (int_of_str (strip line)) as [z|]; [|discriminate].
  destruct ((1 <=? z) && (z <=? 4))%Z eqn:E; [|discriminate].
  intros H. inversion H; subst. apply andb_true_iff in E. lia.
Qed.

(** One question, on questions with four options: it is answered by the
    first valid choice of the input, and the input ends before it is
    answered when there is none. *)
Lemma ask_spec (mcq : MCQ) (stdin : list str) :
  (4 <= List.length (options mcq))%nat ->
  match choices stdin with
  | [] => ask mcq stdin = (Stopped EOFError, [])
  | c :: cs =>
      exists rest, ask mcq stdin = (Answered (is_correct mcq c), rest)
                   /\ choices rest = cs
  end.
Proof.
  intros H4. induction stdin as [|line rest IH]; [reflexivity|].
  cbn [choices flat_map ask] in *. fold (choices rest) in *.
  destruct (valid_choice line) as [c|] eqn:V.
  - pose proof (valid_choice_range line V) as R.
    unfold valid_choice in V.
    destruct (int_of_str (strip line)) as [z|]; [|discriminate].
    destruct ((1 <=? z) && (z <=? 4))%Z; [|discriminate].
    inversion V; subst z. cbn [app]. unfold is_correct.
    destruct (nth_error (options mcq) (Z.to_nat (c - 1))) as [o|] eqn:N.
    + exists rest. split; reflexivity.
    + apply nth_error_None in N. lia.
  - cbn [app]. unfold valid_choice in V.
    destruct (int_of_str (strip line)) as [z|]; [|exact IH].
    destruct ((1 <=? z) && (z <=? 4))%Z; [discriminate | exact IH].
Qed.

Lemma for_mcqs_spec (todo : list MCQ) :
  Forall (fun mcq => (4 <= List.length (options mcq))%nat) todo ->
  forall score stdin,
  fst (for_mcqs todo score stdin) = grade todo (choices stdin) score.
Proof.
  induction 1 as [|mcq rest H4 _ IH]; intros score stdin; [reflexivity|].
  cbn [for_mcqs grade]. pose proof (ask_spec mcq stdin H4) as A.
  destruct (choices stdin) as [|c cs].
  - rewrite A. reflexivity.
  - destruct A as (left & -> & <-). apply IH.
Qed.

Lemma grade_bounds (todo : list MCQ) :
  forall cs score,
  (score <= snd (grade todo cs score) <= score + Z.of_nat (List.length todo))%Z
  /\ (fst (grade todo cs score) = None <-> (List.length todo <= List.length cs)%nat)
  /\ (fst (grade todo cs score) = None \/ fst (grade todo cs score) = Some EOFError).
Proof.
  induction todo as [|mcq rest IH]; intros cs score.
  - cbn. repeat split; try lia. left; reflexivity.
  - cbn [grade]. destruct cs as [|c cs].
    + cbn. repeat split; try lia; try discriminate. right; reflexivity.
    + destruct (IH cs (if is_correct mcq c then score + 1 else score)%Z)
        as (B & N & E).
      cbn [List.length]. split; [destruct (is_correct mcq c); lia|].
      split; [rewrite N; lia | exact E].
Qed.

Lemma init_four_options :
  Forall (fun mcq => (4 <= List.length (options mcq))%nat) (mcqs init).
Proof. repeat constructor. Qed.

(** X14. The quiz reads its input line by line and passes over every
    line that is not an integer from 1 to 4 (once stripped): what it
    returns and the score it leaves depend on the valid choices alone,
    the first four of them, one a question in order.  The score grows by
    one for each question whose choice is the one of the answer key
    (2, 2, 2, 1), and by nothing otherwise. *)
Theorem X14_quiz_reads_the_valid_choices (stdin : list str) :
  let cs := choices stdin in
  let run := fst (start_quiz init stdin) in
  score (snd run) = snd (grade (mcqs init) cs 0)
  /\ mcqs (snd run) = mcqs init
  /\ (forall stdin', choices stdin' = cs ->
        fst (start_quiz init stdin') = run)
  /\ (forall i c, (i < 4)%nat -> (1 <= c <= 4)%Z ->
        is_correct (nth i (mcqs init) (mk_mcq [] [] [])) c
        = (c =? nth i answer_key 0)%Z).
Proof.
  cbv zeta.
  assert (S : forall input,
            fst (start_quiz init input)
            = let g := grade (mcqs init) (choices input) 0 in
              let self' := mk_quiz (mcqs init) (snd g) in
              match fst g with
              | Some e => (Raises e, self')
              | None =>
                  match get_level self' with
                  | Val level => (Level level, self')
                  | Raised e => (Raises (FromLevel e), self')
                  end
              end).
  { intros input. unfold start_quiz.
    pose proof (for_mcqs_spec init_four_options 0 input) as F.
    change (score init) with 0%Z.
    destruct (for_mcqs (mcqs init) 0 input) as [[e s] left]. cbn [fst] in F.
    rewrite <- F. cbv zeta. cbn [fst snd].
    destruct e; [reflexivity|].
    destruct (get_level (mk_quiz (mcqs init) s)); reflexivity. }
  split; [|split; [|split]].
  - rewrite S. cbv zeta.
    destruct (fst (grade (mcqs init) (choices stdin) 0)); [reflexivity|].
    destruct (get_level _); reflexivity.
  - rewrite S. cbv zeta.
    destruct (fst (grade (mcqs init) (choices stdin) 0)); [reflexivity|].
    destruct (get_level _); reflexivity.
  - intros stdin' E. rewrite !S, E. reflexivity.
  - intros i c Hi Hc.
    assert (C : (c = 1 \/ c = 2 \/ c = 3 \/ c = 4)%Z) by lia.
    do 4 (destruct i as [|i]; [destruct C as [-> | [-> | [-> | ->]]]; reflexivity|]).
    lia.
Qed.

(** X15. On any input the quiz ends in one of two ways.  With fewer than
    four valid choices it raises [EOFError] when the input runs out, and
    nothing else is ever raised.  With four or more it returns a level,
    the score it leaves lies between 0 and 4, the number of questions,
    and the level is the one [get_level] gives that score: beginner for 0
    and 1, intermediate for 2, advanced for 3 and 4. *)
Theorem X15_quiz_score_is_achievable (stdin : list str) :
  let run := fst (start_quiz init stdin) in
  ((List.length (choices stdin) < 4)%nat /\ fst run = Raises EOFError)
  \/ ((4 <= List.length (choices stdin))%nat
      /\ (0 <= score (snd run) <= 4)%Z
      /\ get_level (snd run) = Val
           (if (score (snd run) <? 2)%Z then lit "beginner"
            else if (score (snd run) <? 3)%Z then lit "intermediate"
                 else lit "advanced")
      /\ fst run = Level
           (if (score (snd run) <? 2)%Z then lit "beginner"
            else if (score (snd run) <? 3)%Z then lit "intermediate"
                 else lit "advanced")).
Proof.
  cbv zeta. unfold start_quiz.
  pose proof (for_mcqs_spec init_four_options 0 stdin) as F.
  change (score init) with 0%Z.
  destruct (for_mcqs (mcqs init) 0 stdin) as [[e s] left]. cbn [fst] in F.
  destruct (grade_bounds (mcqs init) (choices stdin) 0) as (B & N & E).
  rewrite <- F in B, N, E. cbn [fst snd] in B, N, E.
  change (List.length (mcqs init)) with 4%nat in *.
  destruct e as [e|].
  - left. cbn [fst snd]. destruct E as [E|E]; [discriminate|].
    inversion E; subst e. split; [|reflexivity].
    destruct (Nat.lt_ge_cases (List.length (choices stdin)) 4) as [L|G];
      [exact L|].
    apply N in G. discriminate.
  - right. assert (G : (4 <= List.length (choices stdin))%nat)
      by (apply N; reflexivity).
    assert (C : (s = 0 \/ s = 1 \/ s = 2 \/ s = 3 \/ s = 4)%Z)
      by (cbn in B; lia).
    destruct C as [-> | [-> | [-> | [-> | ->]]]];
      (split; [exact G|]); vm_compute; repeat split; congruence.
Qed.

End Quiz.

(** ** More on the quiz, the keywords and the lines of a call *)

Section QuizAgain.

Import QuizRun.

(** X16. [start_quiz] adds to the score the object already has: on a quiz
    whose questions have four options it leaves the old score plus one
    for each question answered by the right choice, so the score never
    goes down and grows by at most the number of questions; a second quiz
    on the same object counts on top of the first. *)
Theorem X16_quiz_adds_to_the_score (self : QuizApp) (stdin : list str) :
  Forall (fun mcq => (4 <= List.length (options mcq))%nat) (mcqs self) ->
  let after := snd (fst (start_quiz self stdin)) in
  score after = snd (grade (mcqs self) (choices stdin) (score self))
  /\ (score self <= score after
      <= score self + Z.of_nat (List.length (mcqs self)))%Z
  /\ mcqs after = mcqs self.
Proof.
  intros H4. cbv zeta. unfold start_quiz.
  pose proof (for_mcqs_spec H4 (score self) stdin) as F.
  destruct (grade_bounds (mcqs self) (choices stdin) (score self)) as (B & _ & _).
  destruct (for_mcqs (mcqs self) (score self) stdin) as [[e s] left].
  cbn [fst] in F. rewrite <- F in B |- *. cbn [snd] in B |- *.
  destruct e as [e|].
  - cbn [fst snd score mcqs]. repeat split; lia.
  - destruct (get_level (mk_quiz (mcqs self) s));
      cbn [fst snd score mcqs]; repeat split; lia.
Qed.

Lemma X16_witness :
  let self := mk_quiz (mcqs init) 4 in
  let stdin := map lit ["2"; "two"; "2"; "9"; "2"; "1"]%string in
  let after := snd (fst (start_quiz self stdin)) in
  score after = snd (grade (mcqs self) (choices stdin) (score self))
  /\ (score self <= score after
      <= score self + Z.of_nat (List.length (mcqs self)))%Z
  /\ mcqs after = mcqs self.
Proof.
  apply (@X16_quiz_adds_to_the_score (mk_quiz (mcqs init) 4)).
  exact init_four_options.
Defined.

End QuizAgain.

Lemma startswith_prefix (p s : str) :
  startswith p s = true <-> exists b, s = p ++ b.
Proof.
  revert s; induction p as [|x p IH]; intros s.
  - split; [intros _; exists s; reflexivity | reflexivity].
  - destruct s as [|y s]; cbn [startswith].
    + split; [discriminate | intros [b E]; discriminate E].
    + rewrite andb_true_iff, Ascii.eqb_eq, IH. split.
      * intros [-> [b ->]]. exists b. reflexivity.
      * intros [b E]. inversion E; subst. split; [reflexivity|].
        exists b. reflexivity.
Qed.

Lemma count_positive (sub s : str) :
  sub <> [] -> (0 < count s sub <-> occurs_in sub s).
Proof.
  intros Hsub. unfold count, occurs_in.
  induction s as [|c s IH].
  - cbn. split; [lia|]. intros (a & b & E).
    destruct a; [destruct sub; [congruence | discriminate] | discriminate].
  - cbn [count_from]. destruct (startswith sub (c :: s)) eqn:E.
    + split; [|lia]. intros _. apply startswith_prefix in E.
      destruct E as [b E]. exists [], b. exact E.
    + rewrite IH. split.
      * intros (a & b & ->). exists (c :: a), b. reflexivity.
      * intros (a & b & E'). destruct a as [|x a].
        -- assert (S : startswith sub (c :: s) = true)
             by (apply startswith_prefix; exists b; exact E').
           congruence.
        -- inversion E'; subst. exists a, b. reflexivity.
Qed.

Lemma sum_positive (l : list nat) :
  0 < sum l <-> exists n, In n l /\ 0 < n.
Proof.
  unfold sum.
  assert (G : forall l a, fold_left Nat.add l a = a + fold_left Nat.add l 0).
  { clear l. induction l as [|x l IH]; intros a; cbn [fold_left]; [lia|].
    rewrite (IH (a + x)), (IH (0 + x)). lia. }
  induction l as [|x l IH]; cbn [fold_left].
  - split; [lia | intros (n & [] & _)].
  - rewrite G. split.
    + intros H. destruct (Nat.eq_dec x 0) as [->|Hx].
      * destruct IH as [IH _]. destruct IH as (n & Hn & Pn); [lia|].
        exists n. split; [right; exact Hn | exact Pn].
      * exists x. split; [left; reflexivity | lia].
    + intros (n & [->|Hn] & Pn); [lia|].
      destruct IH as [_ IH]. specialize (IH (ex_intro _ n (conj Hn Pn))). lia.
Qed.

(** X17. The score of a category is positive exactly when one of its
    keywords occurs somewhere in the lower-cased text, be it inside a
    longer word; so a category no keyword of which occurs scores 0. *)
Theorem X17_score_positive_iff_keyword_occurs (T : str) (i : nat) :
  0 < score_nth T i
  <-> exists keyword,
        In keyword (nth i (map snd markers) []) /\ occurs_in keyword (lower T).
Proof.
  assert (Hne : forall keyword,
            In keyword (nth i (map snd markers) []) -> keyword <> []).
  { intros keyword Hk E. subst keyword.
    do 5 (destruct i as [|i];
          [cbn in Hk; repeat (destruct Hk as [Hk|Hk]; [discriminate Hk|]);
           exact Hk|]).
    destruct i; exact Hk. }
  unfold score_nth. rewrite sum_positive. split.
  - intros (n & Hn & Pn). apply in_map_iff in Hn.
    destruct Hn as (keyword & <- & Hk). exists keyword.
    split; [exact Hk|]. apply count_positive; [apply Hne; exact Hk | exact Pn].
  - intros (keyword & Hk & Ho). exists (count (lower T) keyword).
    split; [apply in_map; exact Hk|].
    apply count_positive; [apply Hne; exact Hk | exact Ho].
Qed.

Lemma printed_app (xs ys : list Event) :
  printed (xs ++ ys) = printed xs ++ printed ys.
Proof. apply flat_map_app. Qed.

Lemma printed_attempt (prompt : str) (a : nat) (o : Outcome) :
  printed (events_of_attempt prompt (Z.of_nat a) o)
  = match failure_line (S a) o with Some line => [line] | None => [] end.
Proof.
  unfold events_of_attempt, failure_line.
  replace (Z.of_nat (S a)) with (Z.of_nat a + 1)%Z by lia.
  destruct o as [msg|rc out err|]; [| destruct (rc =? 0)%Z |]; reflexivity.
Qed.

Lemma printed_run (prompt : str) (max_retries : Z) (outs : list Outcome) :
  forall a,
  printed (events_of_run prompt max_retries a outs)
  = failure_lines (S a) (firstn (attempts_made outs) outs).
Proof.
  induction outs as [|o outs IH]; intros a; [reflexivity|].
  cbn [events_of_run attempts_made].
  rewrite printed_app, printed_attempt.
  destruct (succeeded o) as [out|] eqn:E.
  - cbn [firstn failure_lines]. rewrite app_nil_r.
    destruct (failure_line (S a) o); reflexivity.
  - rewrite !printed_app, IH. cbn [firstn failure_lines].
    destruct (Z.of_nat a <? max_retries - 1)%Z, (failure_line (S a) o);
      reflexivity.
Qed.

(** X18. A call prints one line for each attempt that fails and nothing
    for the attempt that succeeds, in the order of the attempts: the line
    names the attempt by its number counted from 1 and tells a timeout
    from an error status (with the error output of the process) and from
    an exception of the spawn (with its text).  A call whose first
    attempt succeeds prints nothing. *)
Theorem X18_one_line_per_failed_attempt (prompt : str) (max_retries : Z)
    (w : World) :
  exists w' n,
    snd (call_llama_with_ollama prompt max_retries w) = w'
    /\ spawned w' = repeat (argv_of prompt) n ++ spawned w
    /\ printed (new_events w w') = failure_lines 1 (outcomes w prompt n)
    /\ (forall out, (0 < max_retries)%Z ->
          succeeded (nth_outcome w prompt 0) = Some out ->
          printed (new_events w w') = []).
Proof.
  rewrite call_llama_with_ollama_spec. cbv zeta. cbn [snd].
  set (outs := outcomes w prompt (Z.to_nat max_retries)).
  assert (Hn : attempts_made outs <= Z.to_nat max_retries).
  { pose proof (attempts_made_le outs) as U.
    pose proof (outcomes_length w prompt (Z.to_nat max_retries)) as L.
    fold outs in L. lia. }
  eexists. exists (attempts_made outs).
  split; [reflexivity|]. split; [reflexivity|].
  rewrite new_events_mk, printed_run.
  split; [unfold outs at 2; rewrite outcomes_firstn by exact Hn; reflexivity|].
  intros out Hpos Hs.
  assert (E : exists rest, outs = nth_outcome w prompt 0 :: rest).
  { unfold outs. destruct (Z.to_nat max_retries) as [|m] eqn:Em; [lia|].
    unfold outcomes. cbn [seq map]. eexists. reflexivity. }
  destruct E as [rest E]. rewrite E. cbn [attempts_made]. rewrite Hs.
  cbn [firstn failure_lines]. unfold failure_line. unfold succeeded in Hs.
  destruct (nth_outcome w prompt 0) as [msg|rc o err|]; try discriminate.
  destruct (rc =? 0)%Z; [reflexivity | discriminate].
Qed.

(** ** The quiz and the documents together *)

Section Recommendation.

Import QuizRun.

Example quiz_runs :
  fst (start_quiz init (map lit ["2"; "two"; " 2 "; "9"; "+2"; ""; "0_1"; "3"]%string))
  = (Level (lit "advanced"), mk_quiz (mcqs init) 4)
  /\ fst (start_quiz init (map lit ["1"; "2"; "5"; "2.0"; "-2"; "4"; "4"]%string))
     = (Level (lit "beginner"), mk_quiz (mcqs init) 1)
  /\ fst (start_quiz init (map lit ["2"; "2"; "x"]%string))
     = (Raises EOFError, mk_quiz (mcqs init) 2).
Proof. vm_compute. repeat split; reflexivity. Qed.

Lemma built_files_app (xs ys : list Event) :
  built_files (xs ++ ys) = built_files xs ++ built_files ys.
Proof. apply flat_map_app. Qed.

Lemma after_call_builds_nothing (prompt : str) (v : World) :
  exists evs, trace (after_call prompt v) = trace v ++ evs
              /\ built_files evs = [].
Proof.
  unfold after_call. cbv zeta. cbn [trace].
  eexists. split; [reflexivity|].
  generalize 0 as a.
  induction (outcomes v prompt (Z.to_nat default_max_retries)) as [|o outs IH];
    intros a; [reflexivity|].
  cbn [events_of_run]. rewrite built_files_app.
  assert (Ea : built_files (events_of_attempt prompt (Z.of_nat a) o) = []).
  { unfold events_of_attempt.
    destruct o as [msg|rc out err|]; [| destruct (rc =? 0)%Z |]; reflexivity. }
  rewrite Ea. destruct (succeeded o); [reflexivity|].
  rewrite built_files_app, IH.
  destruct (Z.of_nat a <? default_max_retries - 1)%Z; reflexivity.
Qed.

Lemma chunk_results_build_nothing (t : str) (chunks : list str) :
  forall v, exists evs,
    trace (snd (chunk_results t chunks v)) = trace v ++ evs
    /\ built_files evs = [].
Proof.
  induction chunks as [|chunk rest IH]; intros v.
  - exists []. rewrite app_nil_r. split; reflexivity.
  - cbn [chunk_results].
    destruct (after_call_builds_nothing (prompt_of t chunk) v) as (e1 & T1 & B1).
    destruct (IH (after_call (prompt_of t chunk) v)) as (e2 & T2 & B2).
    destruct (chunk_results t rest _) as [results v']. cbn [snd] in *.
    exists (e1 ++ e2). rewrite T2, T1, <- app_assoc, built_files_app, B1, B2.
    split; reflexivity.
Qed.

Lemma tier_results_build_nothing (chunks : list str) (items : dict str) :
  forall v, exists evs,
    trace (snd (tier_results items chunks v)) = trace v ++ evs
    /\ built_files evs = [].
Proof.
  induction items as [|[lv t] rest IH]; intros v.
  - exists []. rewrite app_nil_r. split; reflexivity.
  - cbn [tier_results].
    destruct (chunk_results_build_nothing t chunks v) as (e1 & T1 & B1).
    destruct (chunk_results t chunks v) as [results v1].
    destruct (IH v1) as (e2 & T2 & B2).
    destruct (tier_results rest chunks v1) as [others v2]. cbn [snd] in *.
    exists (e1 ++ e2). rewrite T2, T1, <- app_assoc, built_files_app, B1, B2.
    split; reflexivity.
Qed.

Lemma generation_builds_nothing (T : str) (w : World) :
  exists evs,
    trace (snd (generate_explanations T w)) = trace w ++ evs
    /\ built_files evs = [].
Proof.
  destruct (generate_explanations_spec T w)
    as (content_type & prompts & _ & _ & _ & _ & E4).
  cbv zeta in E4. rewrite E4. cbn [snd].
  destruct (tier_results_build_nothing (chunks_of max_chunk_size T) prompts
              (after_detection content_type w)) as (evs & Tr & B).
  rewrite Tr. cbn [trace after_detection]. rewrite <- app_assoc.
  eexists. split; [reflexivity|]. rewrite built_files_app, B. reflexivity.
Qed.

(** X19. When a run that follows a quiz returns normally, the documents
    it has built are [beginner_guide.pdf], [intermediate_guide.pdf] and
    [advanced_guide.pdf], these three and in this order, and the level the
    quiz returned names one of them: the file called after the level,
    the level followed by [_guide.pdf], has been built.  In a run that
    raises, the documents built are the first ones of the three. *)
Theorem X19_recommended_guide_is_built
    (stdin : list str) (level : str) (self' : QuizApp) (unread : list str)
    (str_title : str -> str)
    (paragraph_error : str -> Style -> option exn)
    (build_error : str -> list Flowable -> option exn)
    (title T : str) (w : World) :
  start_quiz init stdin = (Level level, self', unread) ->
  let run := main_after_extraction str_title paragraph_error build_error
               title T w in
  let names := map (fun tier => tier ++ lit "_guide.pdf") tiers in
  (exists k, built_files (new_events w (snd run)) = firstn k names)
  /\ (fst run = Val tt ->
      built_files (new_events w (snd run)) = names
      /\ In (level ++ lit "_guide.pdf") (built_files (new_events w (snd run)))).
Proof.
  intros Hquiz. cbv zeta.
  destruct (main_after_extraction_run str_title paragraph_error build_error
              title T w) as (content_type & eb & ei & ea & w1 & G & M).
  cbv zeta in M.
  destruct (generation_builds_nothing T w) as (evs & Tr & B).
  rewrite G in Tr. cbn [snd] in Tr.
  match type of M with _ = (fst (documents_run _ _ ?d), _) =>
    destruct (documents_run_prefix paragraph_error build_error d)
      as (k & Hk & Hb & Hv & _)
  end.
  rewrite M. cbn [fst snd]. rewrite Tr, <- app_assoc.
  rewrite new_events_mk, built_files_app, B. cbn [app].
  split; [exists k; exact Hb|].
  intros Hval. apply Hv in Hval. rewrite Hb, Hval.
  split; [reflexivity|].
  pose proof (@selected_level_is_a_tier _ _ _ _ _ Hquiz) as Hl.
  apply (in_map (fun tier => tier ++ lit "_guide.pdf")) in Hl. exact Hl.
Qed.

Lemma X19_witness :
  let run := main_after_extraction lower accepts_all writes_all
               (lit "Scheduling") (lit "process scheduling") parrot in
  let names := map (fun tier => tier ++ lit "_guide.pdf") tiers in
  (exists k, built_files (new_events parrot (snd run)) = firstn k names)
  /\ (fst run = Val tt ->
      built_files (new_events parrot (snd run)) = names
      /\ In (lit "advanced" ++ lit "_guide.pdf")
            (built_files (new_events parrot (snd run)))).
Proof.
  apply (@X19_recommended_guide_is_built
           (map lit ["2"; "2"; "2"; "1"]%string) (lit "advanced")
           (mk_quiz (mcqs init) 4) []).
  vm_compute. reflexivity.
Defined.

Example a_refused_document :
  let run := main_after_extraction lower refuses_angle writes_all
               (lit "Scheduling") (lit "process scheduling")
               (mk_world (fun _ => Exits 0 (lit "if a<b then swap") []) [] []) in
  fst run = Raised (mk_exn ValueError (lit "Parse error"))
  /\ built_files (trace (snd run)) = [].
Proof. vm_compute. split; reflexivity. Qed.

End Recommendation.
